(** * AgentBay Python SDK: the Gemini chat wrapper and the client singleton

    A shallow embedding of [agentbay/llms/gemini/chat.py] (the wrapper
    installed over [GenerativeModel.generate_content]) and of
    [agentbay/client.py] (the [AgentBay] singleton), with the properties of
    the specification stated and proved over it.

    Python values are dynamically typed, so the embedding starts with a
    small universe of Python values and the builtins the wrapper applies to
    them ([bool], [str], [repr], [len], [iter], [x[0]], [hasattr],
    [getattr], [json.dumps]). *)

From Stdlib Require Import Ascii String.
From stdpp Require Import gmap strings list pretty.

Local Open Scope string_scope.
Local Open Scope Z_scope.
Local Set Warnings "-register-all".

(** ** Python values *)

Module Py.

(** The values that reach the wrapper: JSON-like data and objects with
    attributes.  An object carries the name of its class, the text its
    [__repr__] gives ([__str__] is taken to be the default, which calls
    [__repr__]) and its instance attributes in definition order.  A Python
    [str] is a [string] whose characters are the code points U+0000 to
    U+00FF.  An object is true and has no length, no items and no
    iteration of its own.  Floats are left out. *)
Inductive pyval : Type :=
| VNone
| VBool (b : bool)
| VInt (z : Z)
| VStr (s : string)
| VList (xs : list pyval)
| VDict (kvs : list (pyval * pyval))
| VObj (cls : string) (repr : string) (attrs : list (string * pyval)).

(** *** Exceptions *)

(** The part of the builtin exception hierarchy the code can tell apart,
    open to user-defined subclasses. *)
Inductive exn_class : Type :=
| BaseException
| KeyboardInterrupt
| SystemExit
| GeneratorExit
| Exception
| TypeError
| ValueError
| LookupError
| KeyError
| IndexError
| RuntimeError
| ImportError
| UserClass (name : string) (base : exn_class).

Fixpoint exn_class_eqb (c d : exn_class) : bool :=
  match c, d with
  | BaseException, BaseException | KeyboardInterrupt, KeyboardInterrupt
  | SystemExit, SystemExit | GeneratorExit, GeneratorExit
  | Exception, Exception | TypeError, TypeError | ValueError, ValueError
  | LookupError, LookupError | KeyError, KeyError | IndexError, IndexError
  | RuntimeError, RuntimeError | ImportError, ImportError => true
  | UserClass n b, UserClass n' b' => String.eqb n n' && exn_class_eqb b b'
  | _, _ => false
  end.

(** [issubclass c d]: [d] is [c] or one of its ancestors. *)
Fixpoint issubclass (c d : exn_class) : bool :=
  exn_class_eqb c d ||
  match c with
  | BaseException => false
  | KeyboardInterrupt | SystemExit | GeneratorExit | Exception =>
      exn_class_eqb BaseException d
  | TypeError | ValueError | LookupError | RuntimeError | ImportError =>
      exn_class_eqb Exception d || exn_class_eqb BaseException d
  | KeyError | IndexError =>
      exn_class_eqb LookupError d || exn_class_eqb Exception d
      || exn_class_eqb BaseException d
  | UserClass _ base => issubclass base d
  end.

(** [c.__name__] *)
Definition exn_name (c : exn_class) : string :=
  match c with
  | BaseException => "BaseException"
  | KeyboardInterrupt => "KeyboardInterrupt"
  | SystemExit => "SystemExit"
  | GeneratorExit => "GeneratorExit"
  | Exception => "Exception"
  | TypeError => "TypeError"
  | ValueError => "ValueError"
  | LookupError => "LookupError"
  | KeyError => "KeyError"
  | IndexError => "IndexError"
  | RuntimeError => "RuntimeError"
  | ImportError => "ImportError"
  | UserClass name _ => name
  end.

(** A raised exception: its class and what [str(e)] gives. *)
Record pyexn : Type := MkExn { exn_cls : exn_class; exn_str : string }.

Definition isinstance_exn (e : pyexn) (c : exn_class) : bool :=
  issubclass (exn_cls e) c.

(** The outcome of a Python expression or call. *)
Inductive result (A : Type) : Type :=
| Ok (a : A)
| Raise (e : pyexn).
Arguments Ok {A} a.
Arguments Raise {A} e.

(** *** Truth value, [bool(v)] *)
Definition truthy (v : pyval) : bool :=
  match v with
  | VNone => false
  | VBool b => b
  | VInt z => negb (z =? 0)
  | VStr s => negb (String.eqb s "")
  | VList xs => match xs with [] => false | _ => true end
  | VDict kvs => match kvs with [] => false | _ => true end
  | VObj _ _ _ => true
  end.

(** *** Attribute access *)

Fixpoint assoc {A : Type} (k : string) (l : list (string * A)) : option A :=
  match l with
  | [] => None
  | (k', v) :: l' => if String.eqb k k' then Some v else assoc k l'
  end.

(** [lookup_attr o name]: the instance attribute, if there is one.  The
    builtin types carry none of the names the wrapper probes.  Attributes
    are plain here: reading one runs no code and raises nothing; a property
    whose getter raises is the subject of the section on a response whose
    text is a property, further down. *)
Definition lookup_attr (o : pyval) (name : string) : option pyval :=
  match o with
  | VObj _ _ attrs => assoc name attrs
  | _ => None
  end.

Definition hasattr (o : pyval) (name : string) : bool :=
  match lookup_attr o name with Some _ => true | None => false end.

(** [getattr(o, name, default)] *)
Definition getattr (o : pyval) (name : string) (default : pyval) : pyval :=
  match lookup_attr o name with Some v => v | None => default end.

(** The guard the wrapper writes as [hasattr(o, name) and o.name]. *)
Definition has_truthy_attr (o : pyval) (name : string) : bool :=
  match lookup_attr o name with Some v => truthy v | None => false end.

(** *** [type(v).__name__] *)
Definition type_name (v : pyval) : string :=
  match v with
  | VNone => "NoneType"
  | VBool _ => "bool"
  | VInt _ => "int"
  | VStr _ => "str"
  | VList _ => "list"
  | VDict _ => "dict"
  | VObj cls _ _ => cls
  end.

Definition is_list (v : pyval) : bool :=
  match v with VList _ => true | _ => false end.

Definition is_list_or_dict (v : pyval) : bool :=
  match v with VList _ | VDict _ => true | _ => false end.

(** *** [str] and [repr] *)

Definition backslash : ascii := "\"%char.
Definition squote : ascii := "'"%char.
Definition dquote : ascii := "034"%char.

Definition hex_digit (n : N) : ascii :=
  match n with
  | 0 => "0" | 1 => "1" | 2 => "2" | 3 => "3" | 4 => "4" | 5 => "5"
  | 6 => "6" | 7 => "7" | 8 => "8" | 9 => "9" | 10 => "a" | 11 => "b"
  | 12 => "c" | 13 => "d" | 14 => "e" | _ => "f"
  end%N%char.

(** The two lower-case hexadecimal digits of a code point below 256. *)
Definition hex2 (c : ascii) : string :=
  let n := N_of_ascii c in
  String (hex_digit (n / 16)) (String (hex_digit (n mod 16)) "").

Definition str1 (c : ascii) : string := String c "".

Fixpoint contains_char (c : ascii) (s : string) : bool :=
  match s with
  | EmptyString => false
  | String c' s' => Ascii.eqb c c' || contains_char c s'
  end.

(** [str.isprintable] on U+0000 to U+00FF. *)
Definition printable (c : ascii) : bool :=
  let n := N_of_ascii c in
  ((32 <=? n) && (n <=? 126) || (161 <=? n) && negb (n =? 173))%N.

Definition repr_char (quote c : ascii) : string :=
  if Ascii.eqb c quote || Ascii.eqb c backslash then String backslash (str1 c)
  else if Ascii.eqb c "009" then String backslash "t"
  else if Ascii.eqb c "010" then String backslash "n"
  else if Ascii.eqb c "013" then String backslash "r"
  else if printable c then str1 c
  else String backslash ("x" +:+ hex2 c).

Fixpoint concat_map (f : ascii -> string) (s : string) : string :=
  match s with
  | EmptyString => ""
  | String c s' => f c +:+ concat_map f s'
  end.

(** [repr] of a [str]: single quotes, unless the text has a single quote
    and no double quote. *)
Definition repr_str (s : string) : string :=
  let quote :=
    if contains_char squote s && negb (contains_char dquote s)
    then dquote else squote in
  String quote (concat_map (repr_char quote) s) +:+ str1 quote.

Definition str_int (z : Z) : string := pretty z.

Fixpoint join (sep : string) (l : list string) : string :=
  match l with
  | [] => ""
  | [s] => s
  | s :: l' => s +:+ sep +:+ join sep l'
  end.

Fixpoint repr (v : pyval) : string :=
  match v with
  | VNone => "None"
  | VBool true => "True"
  | VBool false => "False"
  | VInt z => str_int z
  | VStr s => repr_str s
  | VList xs => "[" +:+ join ", " (map repr xs) +:+ "]"
  | VDict kvs =>
      "{" +:+ join ", " (map (fun kv => repr kv.1 +:+ ": " +:+ repr kv.2) kvs)
      +:+ "}"
  | VObj _ r _ => r
  end.

(** [str(v)]: the text itself for a [str], [repr(v)] for the rest. *)
Definition str (v : pyval) : string :=
  match v with
  | VStr s => s
  | _ => repr v
  end.

(** *** [len], iteration and indexing *)

Definition type_error (msg : string) : pyexn := MkExn TypeError msg.

Definition chars (s : string) : list pyval :=
  map (fun c => VStr (str1 c)) (list_ascii_of_string s).

(** [len(v)] *)
Definition len (v : pyval) : result Z :=
  match v with
  | VStr s => Ok (Z.of_nat (String.length s))
  | VList xs => Ok (Z.of_nat (length xs))
  | VDict kvs => Ok (Z.of_nat (length kvs))
  | _ => Raise (type_error
                  ("object of type '" +:+ type_name v +:+ "' has no len()"))
  end.

(** [list(iter(v))]: what a [for] loop over [v] visits. *)
Definition iterate (v : pyval) : result (list pyval) :=
  match v with
  | VStr s => Ok (chars s)
  | VList xs => Ok xs
  | VDict kvs => Ok (map fst kvs)
  | _ => Raise (type_error ("'" +:+ type_name v +:+ "' object is not iterable"))
  end.

(** A dict key equal to the integer [0] ([False == 0] in Python). *)
Definition key_is_zero (k : pyval) : bool :=
  match k with
  | VInt 0 | VBool false => true
  | _ => false
  end.

Fixpoint dict_get_zero (kvs : list (pyval * pyval)) : option pyval :=
  match kvs with
  | [] => None
  | (k, v) :: kvs' => if key_is_zero k then Some v else dict_get_zero kvs'
  end.

(** [v[0]] *)
Definition getitem0 (v : pyval) : result pyval :=
  match v with
  | VStr (String c _) => Ok (VStr (str1 c))
  | VStr EmptyString => Raise (MkExn IndexError "string index out of range")
  | VList (x :: _) => Ok x
  | VList [] => Raise (MkExn IndexError "list index out of range")
  | VDict kvs =>
      match dict_get_zero kvs with
      | Some x => Ok x
      | None => Raise (MkExn KeyError "0")
      end
  | _ => Raise (type_error
                  ("'" +:+ type_name v +:+ "' object is not subscriptable"))
  end.

(** *** [json.dumps] with its default options *)

Definition json_char (c : ascii) : string :=
  if Ascii.eqb c dquote || Ascii.eqb c backslash then String backslash (str1 c)
  else if Ascii.eqb c "010" then String backslash "n"
  else if Ascii.eqb c "013" then String backslash "r"
  else if Ascii.eqb c "009" then String backslash "t"
  else if Ascii.eqb c "008" then String backslash "b"
  else if Ascii.eqb c "012" then String backslash "f"
  else if ((32 <=? N_of_ascii c) && (N_of_ascii c <=? 126))%N then str1 c
  else String backslash ("u00" +:+ hex2 c).

Definition json_str (s : string) : string :=
  String dquote (concat_map json_char s) +:+ str1 dquote.

(** A dict key as the encoder writes it; other keys are refused. *)
Definition json_key (k : pyval) : result string :=
  match k with
  | VStr s => Ok (json_str s)
  | VInt z => Ok (json_str (str_int z))
  | VBool true => Ok (json_str "true")
  | VBool false => Ok (json_str "false")
  | VNone => Ok (json_str "null")
  | _ => Raise (type_error
                  ("keys must be str, int, float, bool or None, not "
                   +:+ type_name k))
  end.

(** Encode the items in order, stopping at the first one that raises. *)
Fixpoint sequence {A : Type} (l : list (result A)) : result (list A) :=
  match l with
  | [] => Ok []
  | Ok a :: l' =>
      match sequence l' with Ok r => Ok (a :: r) | Raise e => Raise e end
  | Raise e :: _ => Raise e
  end.

Definition json_item (k : result string) (v : result string) : result string :=
  match k, v with
  | Raise e, _ => Raise e
  | Ok _, Raise e => Raise e
  | Ok ks, Ok vs => Ok (ks +:+ ": " +:+ vs)
  end.

Fixpoint json_dumps (v : pyval) : result string :=
  match v with
  | VNone => Ok "null"
  | VBool true => Ok "true"
  | VBool false => Ok "false"
  | VInt z => Ok (str_int z)
  | VStr s => Ok (json_str s)
  | VList xs =>
      match sequence (map json_dumps xs) with
      | Ok l => Ok ("[" +:+ join ", " l +:+ "]")
      | Raise e => Raise e
      end
  | VDict kvs =>
      match sequence (map (fun kv => json_item (json_key kv.1) (json_dumps kv.2))
                          kvs) with
      | Ok l => Ok ("{" +:+ join ", " l +:+ "}")
      | Raise e => Raise e
      end
  | VObj cls _ _ =>
      Raise (type_error
               ("Object of type " +:+ cls +:+ " is not JSON serializable"))
  end.

End Py.

Import Py.

(** ** Spans and the tracer *)

Module Telemetry.

Inductive StatusCode : Type := UNSET | OK | ERROR.

(** [Status(status_code, description)] *)
Record Status : Type :=
  MkStatus { status_code : StatusCode; description : option string }.

(** A span: the name it was started with, the values handed to
    [set_attribute] (the last one for a key stays), the status handed to
    [set_status], the exceptions handed to [record_exception], one entry for
    every call, and whether the [with] block has ended it.  What the
    OpenTelemetry library does with an ended span (checks on attribute
    values, batching and export) is outside the repository. *)
Record span : Type := MkSpan {
  name : string;
  attributes : gmap string pyval;
  status : Status;
  events : list pyexn;
  ended : bool
}.

Definition new_span (span_name : string) : span :=
  MkSpan span_name ∅ (MkStatus UNSET None) [] false.

(** Code that runs inside a span: it may change the span and it returns
    or raises. *)
Definition SpanM (A : Type) : Type := span -> result A * span.

Definition ret {A : Type} (a : A) : SpanM A := fun sp => (Ok a, sp).

Definition raise {A : Type} (e : pyexn) : SpanM A := fun sp => (Raise e, sp).

Definition bind {A B : Type} (c : SpanM A) (k : A -> SpanM B) : SpanM B :=
  fun sp =>
    match c sp with
    | (Ok a, sp') => k a sp'
    | (Raise e, sp') => (Raise e, sp')
    end.

(** The outcome of a call that does not touch the span. *)
Definition lift {A : Type} (r : result A) : SpanM A := fun sp => (r, sp).

Definition set_attribute (key : string) (value : pyval) : SpanM unit :=
  fun sp =>
    (Ok tt, MkSpan (name sp) (<[key := value]> (attributes sp)) (status sp)
                   (events sp) (ended sp)).

Definition set_status (st : Status) : SpanM unit :=
  fun sp =>
    (Ok tt, MkSpan (name sp) (attributes sp) st (events sp) (ended sp)).

Definition record_exception (e : pyexn) : SpanM unit :=
  fun sp =>
    (Ok tt, MkSpan (name sp) (attributes sp) (status sp) ((events sp ++ [e])%list)
                   (ended sp)).

(** [try: body except (c1, ..., cn) as e: handler e] *)
Definition try_except {A : Type} (body : SpanM A) (classes : list exn_class)
    (handler : pyexn -> SpanM A) : SpanM A :=
  fun sp =>
    match body sp with
    | (Ok a, sp') => (Ok a, sp')
    | (Raise e, sp') =>
        if existsb (isinstance_exn e) classes then handler e sp'
        else (Raise e, sp')
    end.

Definition end_span (sp : span) : span :=
  MkSpan (name sp) (attributes sp) (status sp) (events sp) true.

(** What the context manager of [start_as_current_span] does with the span
    when the block is left, its [record_exception] and
    [set_status_on_exception] being at their defaults since the wrapper
    passes neither: an instance of [Exception] that leaves the block is
    recorded on the span and, unless the status is OK already, the status
    becomes ERROR with the description ["<class name>: <message>"]; any
    other way out leaves the span as it is. *)
Definition on_exit {A : Type} (r : result A) (sp : span) : span :=
  match r with
  | Ok _ => sp
  | Raise e =>
      if isinstance_exn e Exception then
        MkSpan (name sp) (attributes sp)
               match status_code (status sp) with
               | OK => status sp
               | _ =>
                   MkStatus ERROR
                     (Some (exn_name (exn_cls e) +:+ ": " +:+ exn_str e))
               end
               ((events sp ++ [e])%list) (ended sp)
      else sp
  end.

(** [with tracer.start_as_current_span(span_name) as span: body]: a new
    span is started, the body runs, and on every way out the span gets
    what [on_exit] gives it, is ended and passed on; [finished] lists the
    ended spans, oldest first. *)
Definition start_as_current_span {A : Type} (span_name : string)
    (body : SpanM A) (finished : list span) : result A * list span :=
  let (r, sp) := body (new_span span_name) in
  (r, (finished ++ [end_span (on_exit r sp)])%list).

End Telemetry.

Import Telemetry.

Declare Scope span_scope.
Delimit Scope span_scope with span.
Notation "x <- c ;; k" := (bind c (fun x => k))
  (at level 100, c at next level, right associativity) : span_scope.
Notation "c ;;; k" := (bind c (fun _ => k))
  (at level 100, right associativity) : span_scope.

(** ** [agentbay/llms/gemini/chat.py] *)

Module Gemini.

Local Open Scope span_scope.

(** [json.dumps(v)] inside [try ... except (TypeError, ValueError)] whose
    handler takes [str(v)] instead. *)
Definition dumps_or_str (v : pyval) : SpanM string :=
  try_except (lift (json_dumps v)) [TypeError; ValueError]
             (fun _ => ret (str v)).

(** The [if tools:] block of the wrapper. *)
Definition record_tools (tools : pyval) : SpanM unit :=
  if truthy tools then
    tools_str <- try_except
                   (if is_list_or_dict tools then lift (json_dumps tools)
                    else ret (str tools))
                   [TypeError; ValueError]
                   (fun _ => ret (str tools)) ;;
    set_attribute "llm.request.tools" (VStr tools_str) ;;;
    if is_list tools then
      n <- lift (len tools) ;;
      set_attribute "llm.request.tool_count" (VInt n)
    else ret tt
  else ret tt.

(** The value stored under ['arguments'] for one function call. *)
Definition arguments_entry (arguments : pyval) : SpanM pyval :=
  match arguments with
  | VNone => ret VNone
  | _ =>
      if is_list_or_dict arguments then
        s <- dumps_or_str arguments ;; ret (VStr s)
      else ret (VStr (str arguments))
  end.

(** The [response] and [error] entries: only for an attribute that is there
    and true. *)
Definition optional_entry (func_call : pyval) (key : string)
    : list (pyval * pyval) :=
  match lookup_attr func_call key with
  | Some v => if truthy v then [(VStr key, VStr (str v))] else []
  | None => []
  end.

(** The body of the loop over [candidate.function_calls]: the dict
    [func_data] built for one function call. *)
Definition func_data (func_call : pyval) : SpanM pyval :=
  let name := getattr func_call "name" VNone in
  a <- arguments_entry (getattr func_call "arguments" VNone) ;;
  ret (VDict ([(VStr "name", name); (VStr "arguments", a)]
              ++ optional_entry func_call "response"
              ++ optional_entry func_call "error")%list).

(** The loop itself: [function_calls_data], in order. *)
Fixpoint function_calls_data (func_calls : list pyval) : SpanM (list pyval) :=
  match func_calls with
  | [] => ret []
  | fc :: rest =>
      d <- func_data fc ;;
      ds <- function_calls_data rest ;;
      ret (d :: ds)
  end.

(** The block guarded by [hasattr(candidate, 'function_calls') and
    candidate.function_calls]. *)
Definition record_candidate (candidate : pyval) : SpanM unit :=
  match lookup_attr candidate "function_calls" with
  | Some function_calls =>
      if truthy function_calls then
        func_calls <- lift (iterate function_calls) ;;
        data <- function_calls_data func_calls ;;
        function_calls_str <- dumps_or_str (VList data) ;;
        set_attribute "llm.response.function_calls"
                      (VStr function_calls_str) ;;;
        n <- lift (len function_calls) ;;
        set_attribute "llm.response.function_call_count" (VInt n)
      else ret tt
  | None => ret tt
  end.

(** The block guarded by [hasattr(response, 'candidates') and
    response.candidates], around the one for [response.candidates[0]]. *)
Definition record_function_calls (response : pyval) : SpanM unit :=
  match lookup_attr response "candidates" with
  | Some candidates =>
      if truthy candidates then
        candidate <- lift (getitem0 candidates) ;;
        record_candidate candidate
      else ret tt
  | None => ret tt
  end.

(** One usage counter, guarded by [hasattr]. *)
Definition record_counter (usage : pyval) (field key : string) : SpanM unit :=
  match lookup_attr usage field with
  | Some n => set_attribute key n
  | None => ret tt
  end.

(** The block guarded by [hasattr(response, 'usage_metadata') and
    response.usage_metadata]. *)
Definition record_usage (response : pyval) : SpanM unit :=
  match lookup_attr response "usage_metadata" with
  | Some usage =>
      if truthy usage then
        record_counter usage "prompt_token_count" "llm.usage.prompt_tokens" ;;;
        record_counter usage "candidates_token_count"
                       "llm.usage.completion_tokens" ;;;
        record_counter usage "total_token_count" "llm.usage.total_tokens"
      else ret tt
  | None => ret tt
  end.

(** The [if hasattr(response, 'text') and response.text:] statement. *)
Definition record_text (response : pyval) : SpanM unit :=
  match lookup_attr response "text" with
  | Some text =>
      if truthy text then set_attribute "llm.response.content" (VStr (str text))
      else ret tt
  | None => ret tt
  end.

(** "2. Record Response Attributes" *)
Definition record_response (response : pyval) : SpanM unit :=
  record_text response ;;;
  record_function_calls response ;;;
  record_usage response.

Section Wrapper.

(** [GenerativeModel.generate_content] as it was before the patch: what it
    returns or raises for a receiver, positional arguments and keyword
    arguments. *)
Variable original_generate_content :
  pyval -> list pyval -> gmap string pyval -> result pyval.

(** The statements inside the [with] block. *)
Definition traced_call (self : pyval) (args : list pyval)
    (kwargs : gmap string pyval) (model contents tools : pyval)
    : SpanM pyval :=
  set_attribute "llm.system" (VStr "gemini") ;;;
  set_attribute "llm.request.model" model ;;;
  set_attribute "llm.request.messages" (VStr (str contents)) ;;;
  record_tools tools ;;;
  try_except
    (response <- lift (original_generate_content self args kwargs) ;;
     record_response response ;;;
     set_status (MkStatus OK None) ;;;
     ret response)
    [Exception]
    (fun e =>
       record_exception e ;;;
       set_status (MkStatus ERROR (Some (exn_str e))) ;;;
       raise e).

Definition wrapped_generate_content (self : pyval) (args : list pyval)
    (kwargs : gmap string pyval) (finished : list span)
    : result pyval * list span :=
  let model := getattr self "model_name" (VStr "unknown") in
  let contents :=
    match args with
    | a :: _ => a
    | [] => default (VList []) (kwargs !! "contents")
    end in
  let tools := default (VList []) (kwargs !! "tools") in
  let span_name := "gemini.chat.generate_content " +:+ str model in
  start_as_current_span span_name
    (traced_call self args kwargs model contents tools) finished.

End Wrapper.

End Gemini.

Import Gemini.

(** ** [agentbay/client.py] *)

Module Client.

(** *** Configuration *)

(** Modelled from the spec: [agentbay/config.py] ([Config] and its
    [validate]) is not among the source files.  The spec gives [Config] two
    fields, [api_key] and [api_url], each of which may fall back to the
    environment or to a default, and has validation fail with a
    configuration error when either resolves to missing or empty.  How a
    field falls back is not said, so the two resolutions are left open. *)
Record Config : Type := MkConfig {
  api_key : option string;
  api_url : option string
}.

(** Modelled from the spec: the error class of a failed validation, which
    the spec names ConfigurationError. *)
Definition ConfigurationError : exn_class :=
  UserClass "ConfigurationError" Exception.

(** Modelled from the spec: a field is missing when it is [None] or
    empty. *)
Definition missing (field : option string) : bool :=
  match field with
  | None => true
  | Some s => String.eqb s ""
  end.

(** Modelled from the spec: [Config.validate], which fails closed, naming
    the field that is missing. *)
Definition validate (config : Config) : result unit :=
  if missing (api_key config) then
    Raise (MkExn ConfigurationError "api_key is required")
  else if missing (api_url config) then
    Raise (MkExn ConfigurationError "api_url is required")
  else Ok tt.

(** *** The export pipeline, as far as [__init__] builds it *)

(** [OTLPSpanExporter(endpoint=..., headers=...)] *)
Record OTLPSpanExporter : Type := MkExporter {
  endpoint : string;
  headers : list (string * string)
}.

(** [TracerProvider(resource=...)] with the exporters behind its batch
    processors. *)
Record TracerProvider : Type := MkProvider {
  resource : list (string * string);
  span_processors : list OTLPSpanExporter
}.

(** An [AgentBay] object; [ident] stands for its identity. *)
Record AgentBay : Type := MkAgentBay {
  ident : nat;
  config : Config;
  tracer_provider : TracerProvider
}.

(** The state of the process that the class touches: the class attribute
    [_instance], the exporters built so far, the providers handed to
    [trace.set_tracer_provider], the providers shut down, and the number of
    [AgentBay] objects created. *)
Record process : Type := MkProcess {
  _instance : option AgentBay;
  exporters : list OTLPSpanExporter;
  global_providers : list TracerProvider;
  shut_down : list nat;
  created : nat
}.

Definition initial_process : process := MkProcess None [] [] [] 0.

(** An [Optional[str]] inside an f-string. *)
Definition fmt (field : option string) : string :=
  match field with
  | Some s => s
  | None => "None"
  end.

Section Singleton.

(** Modelled from the spec: how [Config(api_key=..., api_url=...)] resolves
    each argument (environment variable, default). *)
Variable resolve_api_key : option string -> option string.
Variable resolve_api_url : option string -> option string.

(** Modelled from the spec: [Config(api_key=..., api_url=...)], which
    keeps the two resolved values. *)
Definition Config_init (api_key api_url : option string) : Config :=
  MkConfig (resolve_api_key api_key) (resolve_api_url api_url).

(** [AgentBay.__init__], called as [cls(config)] *)
Definition AgentBay_init (config : Config) (p : process) : AgentBay * process :=
  let resource := [("service.name", "agentbay-python-sdk")] in
  let endpoint := fmt (api_url config) +:+ "/api/v1/traces" in
  let exporter :=
    MkExporter endpoint [("Authorization", "Bearer " +:+ fmt (api_key config))] in
  let provider := MkProvider resource [exporter] in
  let self := MkAgentBay (created p) config provider in
  (self,
   MkProcess (_instance p) (exporters p ++ [exporter])%list
             (global_providers p ++ [provider])%list (shut_down p)
             (S (created p))).

Definition initialize (api_key api_url : option string) (p : process)
    : result AgentBay * process :=
  let config := Config_init api_key api_url in
  match validate config with
  | Raise e => (Raise e, p)
  | Ok _ =>
      let (self, p') := AgentBay_init config p in
      (Ok self,
       MkProcess (Some self) (exporters p') (global_providers p')
                 (shut_down p') (created p'))
  end.

Definition not_initialized : pyexn :=
  MkExn RuntimeError
        "AgentBay is not initialized. Please call `agentbay.init(api_key='...')` first.".

Definition get_instance (p : process) : result AgentBay * process :=
  match _instance p with
  | None => (Raise not_initialized, p)
  | Some self => (Ok self, p)
  end.

(** [shutdown]: a provider object is always true, so it is shut down. *)
Definition shutdown (self : AgentBay) (p : process) : process :=
  MkProcess (_instance p) (exporters p) (global_providers p)
            (shut_down p ++ [ident self])%list (created p).

(** The states a process can be in, with the instance returned by the
    latest successful [initialize] ([None] while there has been none). *)
Inductive reaches : option AgentBay -> process -> Prop :=
| reaches_start : reaches None initial_process
| reaches_initialize_failed latest p api_key api_url e p' :
    reaches latest p ->
    initialize api_key api_url p = (Raise e, p') ->
    reaches latest p'
| reaches_initialize latest p api_key api_url self p' :
    reaches latest p ->
    initialize api_key api_url p = (Ok self, p') ->
    reaches (Some self) p'
| reaches_get_instance latest p r p' :
    reaches latest p ->
    get_instance p = (r, p') ->
    reaches latest p'
| reaches_shutdown latest p self :
    reaches latest p ->
    reaches latest (shutdown self p).

End Singleton.

End Client.

Import Client.

(** ** The vocabulary of the specification *)

Module Spec.

(** "JSON serialization, falling back to the string representation on
    serialization failure". *)
Definition json_or_str (v : pyval) : string :=
  match json_dumps v with
  | Ok s => s
  | Raise _ => str v
  end.

(** The text recorded for a tools value: structured serialization for a
    list or dict, the plain string otherwise. *)
Definition tools_text (tools : pyval) : string :=
  if is_list_or_dict tools then json_or_str tools else str tools.

(** The [arguments] entry of a function-call record: null when the call has
    no arguments, the serialization of a dict or list, the string form of
    anything else. *)
Definition arguments_text (func_call : pyval) : pyval :=
  match lookup_attr func_call "arguments" with
  | None | Some VNone => VNone
  | Some a => if is_list_or_dict a then VStr (json_or_str a) else VStr (str a)
  end.

(** The string form of an attribute, when the attribute is there and
    true. *)
Definition text_if_set (o : pyval) (field : string) : option pyval :=
  match lookup_attr o field with
  | Some v => if truthy v then Some (VStr (str v)) else None
  | None => None
  end.



(** A response with no function calls under any candidate: no [candidates]
    at all, an empty or null one, or a list of candidates none of which has
    a [function_calls] attribute. *)
Definition no_function_calls (response : pyval) : bool :=
  match lookup_attr response "candidates" with
  | None => true
  | Some (VList cs) => forallb (fun c => negb (hasattr c "function_calls")) cs
  | Some c => negb (truthy c)
  end.

(** A response whose [candidates], if any, is null, empty or a list whose
    first item has no [function_calls], a null or empty one, or a list. *)
Definition list_shaped (response : pyval) : bool :=
  match lookup_attr response "candidates" with
  | None => true
  | Some (VList []) => true
  | Some (VList (c :: _)) =>
      match lookup_attr c "function_calls" with
      | None => true
      | Some (VList _) => true
      | Some v => negb (truthy v)
      end
  | Some v => negb (truthy v)
  end.

(** A response without the usage counter [field]: no [usage_metadata], a
    null one, or one without that attribute. *)
Definition no_counter (response : pyval) (field : string) : bool :=
  match lookup_attr response "usage_metadata" with
  | None => true
  | Some usage => negb (truthy usage) || negb (hasattr usage field)
  end.

(** What the [except Exception] handler of the wrapper leaves on the span:
    the exception recorded and the status set from its message. *)
Definition marked_error (e : pyexn) (sp : span) : Prop :=
  events sp = [e] /\ status sp = MkStatus ERROR (Some (exn_str e)).

(** The span of a failed call as the specification describes it for an
    original that raises [e]: the caller gets [e], and the one span the call
    adds is marked with it. *)
Definition failure_contract
    (original : pyval -> list pyval -> gmap string pyval -> result pyval)
    (self : pyval) (args : list pyval) (kwargs : gmap string pyval)
    (e : pyexn) : Prop :=
  exists sp,
    wrapped_generate_content original self args kwargs [] = (Raise e, [sp])
    /\ marked_error e sp.

(** The request attributes the specification gives a call that supplies
    [tools]. *)
Definition tools_recorded
    (original : pyval -> list pyval -> gmap string pyval -> result pyval)
    (self : pyval) (args : list pyval) (kwargs : gmap string pyval)
    (tools : pyval) : Prop :=
  exists sp,
    (wrapped_generate_content original self args kwargs []).2 = [sp]
    /\ attributes sp !! "llm.request.tools" = Some (VStr (tools_text tools)).

(** One function-call record, as the specification lists its entries:
    the name, the arguments, and the response and the error when set. *)
Definition function_call_record (func_call : pyval) : pyval :=
  VDict ([(VStr "name", getattr func_call "name" VNone);
          (VStr "arguments", arguments_text func_call)]
         ++ match text_if_set func_call "response" with
            | Some t => [(VStr "response", t)]
            | None => []
            end
         ++ match text_if_set func_call "error" with
            | Some t => [(VStr "error", t)]
            | None => []
            end)%list.

End Spec.

Import Spec.

(** ** The wrapper in steps *)

Module Steps.

(** The span as it stands when the original is called: the request
    attributes are on it. *)
Definition request_span (model contents tools : pyval) (sp : span) : span :=
  (bind (set_attribute "llm.system" (VStr "gemini")) (fun _ =>
   bind (set_attribute "llm.request.model" model) (fun _ =>
   bind (set_attribute "llm.request.messages" (VStr (str contents))) (fun _ =>
   record_tools tools))) sp).2.

(** The [except Exception as e] clause applied to a span: it runs for an
    instance of [Exception] only. *)
Definition on_exception (e : pyexn) (sp : span) : span :=
  if isinstance_exn e Exception then
    (bind (record_exception e) (fun _ =>
       set_status (MkStatus ERROR (Some (exn_str e)))) sp).2
  else sp.

(** The span at the end of the [try] statement. *)
Definition outcome
    (original : pyval -> list pyval -> gmap string pyval -> result pyval)
    (self : pyval) (args : list pyval) (kwargs : gmap string pyval)
    (sp0 : span) : result pyval * span :=
  match original self args kwargs with
  | Raise e => (Raise e, on_exception e sp0)
  | Ok response =>
      match record_response response sp0 with
      | (Ok _, sp1) => (Ok response, (set_status (MkStatus OK None) sp1).2)
      | (Raise e, sp1) => (Raise e, on_exception e sp1)
      end
  end.

(** The request content and the tools as the wrapper reads them off the
    arguments. *)
Definition contents_of (args : list pyval) (kwargs : gmap string pyval)
    : pyval :=
  match args with
  | a :: _ => a
  | [] => default (VList []) (kwargs !! "contents")
  end.

Definition tools_of (kwargs : gmap string pyval) : pyval :=
  default (VList []) (kwargs !! "tools").

(** The span of a call when the original is called. *)
Definition started (self : pyval) (args : list pyval)
    (kwargs : gmap string pyval) : span :=
  let model := getattr self "model_name" (VStr "unknown") in
  request_span model (contents_of args kwargs) (tools_of kwargs)
    (new_span ("gemini.chat.generate_content " +:+ str model)).

(** The [with] block run on the span it was given: what leaves the block,
    and the span as the wrapper leaves it, before the context manager
    closes. *)
Definition leaving
    (original : pyval -> list pyval -> gmap string pyval -> result pyval)
    (self : pyval) (args : list pyval) (kwargs : gmap string pyval)
    : result pyval * span :=
  let model := getattr self "model_name" (VStr "unknown") in
  traced_call original self args kwargs model (contents_of args kwargs)
    (tools_of kwargs)
    (new_span ("gemini.chat.generate_content " +:+ str model)).

Definition request_keys : list string :=
  ["llm.system"; "llm.request.model"; "llm.request.messages";
   "llm.request.tools"; "llm.request.tool_count"].

Definition function_call_keys : list string :=
  ["llm.response.function_calls"; "llm.response.function_call_count"].

Definition usage_keys : list string :=
  ["llm.usage.prompt_tokens"; "llm.usage.completion_tokens";
   "llm.usage.total_tokens"].

(** The usage counters of a response and the keys they are recorded
    under. *)
Definition counters : list (string * string) :=
  [("prompt_token_count", "llm.usage.prompt_tokens");
   ("candidates_token_count", "llm.usage.completion_tokens");
   ("total_token_count", "llm.usage.total_tokens")].

Definition response_keys : list string :=
  "llm.response.content" :: (function_call_keys ++ usage_keys)%list.

(** A span is only changed in its attributes, and only under [keys]. *)
Definition frame (keys : list string) (sp sp' : span) : Prop :=
  name sp' = name sp /\ status sp' = status sp /\ events sp' = events sp
  /\ ended sp' = ended sp
  /\ forall k, k ∉ keys -> attributes sp' !! k = attributes sp !! k.

(** A computation that writes attributes under [keys] at most. *)
Definition writes {A : Type} (keys : list string) (c : SpanM A) : Prop :=
  forall sp, frame keys sp (c sp).2.

(** A computation that leaves the span alone and returns [a]. *)
Definition pure {A : Type} (c : SpanM A) (a : A) : Prop :=
  forall sp, c sp = (Ok a, sp).

End Steps.

Import Steps.

(** Membership of a key in a list of keys, by evaluation. *)
Ltac in_keys :=
  match goal with
  | |- ?P => apply (@bool_decide_unpack P _); vm_compute; exact I
  end.

(** ** Sample calls *)

Module Sample.

Definition gemini_pro : pyval :=
  VObj "GenerativeModel" "<GenerativeModel>" [("model_name", VStr "gemini-pro")].

Definition usage_3_2_5 : pyval :=
  VObj "UsageMetadata" "<UsageMetadata>"
       [("prompt_token_count", VInt 3);
        ("candidates_token_count", VInt 2);
        ("total_token_count", VInt 5)].

(** The response of the specification's scenario: text ["hi"] and usage
    3, 2, 5. *)
Definition hi : pyval :=
  VObj "GenerateContentResponse" "<GenerateContentResponse>"
       [("text", VStr "hi"); ("usage_metadata", usage_3_2_5)].

(** A response with nothing on it. *)
Definition bare : pyval :=
  VObj "GenerateContentResponse" "<GenerateContentResponse>" [].

(** A response whose text is the empty string. *)
Definition silent : pyval :=
  VObj "GenerateContentResponse" "<GenerateContentResponse>"
       [("text", VStr "")].

Definition quota_exceeded : pyexn := MkExn ValueError "quota exceeded".

Definition interrupted : pyexn := MkExn KeyboardInterrupt "".

(** An original that returns [response], and one that raises [e]. *)
Definition returning (response : pyval)
    : pyval -> list pyval -> gmap string pyval -> result pyval :=
  fun _ _ _ => Ok response.

Definition raising (e : pyexn)
    : pyval -> list pyval -> gmap string pyval -> result pyval :=
  fun _ _ _ => Raise e.

(** A tool declaration, which the JSON encoder refuses. *)
Definition weather_tool : pyval := VObj "Tool" "<Tool get_weather>" [].

(** Two function calls: one with dict arguments and an empty response,
    one with opaque arguments and an error. *)
Definition call_weather : pyval :=
  VObj "FunctionCall" "<FunctionCall get_weather>"
       [("name", VStr "get_weather");
        ("arguments", VDict [(VStr "city", VStr "Paris")]);
        ("response", VStr "")].




(** The first client of a process, for key ["k"] and URL
    ["https://host"]. *)
Definition client : AgentBay :=
  MkAgentBay 0 (MkConfig (Some "k") (Some "https://host"))
    (MkProvider [("service.name", "agentbay-python-sdk")]
       [MkExporter "https://host/api/v1/traces"
                   [("Authorization", "Bearer k")]]).

End Sample.

(** ** Installing the wrapper: [instrument_chat] and [instrument] *)

Module Instrument.

(** A [generate_content] method as the class holds it: called on a
    receiver and arguments, it returns or raises, and it may itself end
    spans (an already instrumented method does). *)
Definition method : Type :=
  pyval -> list pyval -> gmap string pyval -> list span ->
  result pyval * list span.

(** The closure [wrapped_generate_content] that [instrument_chat] builds
    around [original_generate_content].  The original runs inside the
    [with] block, so the spans it ends are passed on before the wrapper's
    own span; apart from that the wrapper sees the original only through
    what this one call returns or raises. *)
Definition wrapped_method (original_generate_content : method) : method :=
  fun self args kwargs finished =>
    let (r, finished') := original_generate_content self args kwargs finished in
    wrapped_generate_content (fun _ _ _ => r) self args kwargs finished'.

(** What the interpreter offers to the two functions: what importing and
    running the gRPC instrumentor does, what [import google.generativeai]
    does, what [from google.generativeai import GenerativeModel] does (when
    it succeeds, the class with its current [generate_content]), and how
    often the gRPC client has been instrumented. *)
Record runtime : Type := MkRuntime {
  grpc_instrumentor : result unit;
  google_generativeai : result unit;
  GenerativeModel : result method;
  grpc_instrumented : nat
}.

(** Step 1 of [instrument_chat]: [try: ... except Exception: pass]. *)
Definition instrument_grpc (rt : runtime) : result unit * runtime :=
  match grpc_instrumentor rt with
  | Ok _ =>
      (Ok tt,
       MkRuntime (grpc_instrumentor rt) (google_generativeai rt)
                 (GenerativeModel rt) (S (grpc_instrumented rt)))
  | Raise e =>
      if isinstance_exn e Exception then (Ok tt, rt) else (Raise e, rt)
  end.

(** [instrument_chat(gemini_module)]; the argument is not used. *)
Definition instrument_chat (gemini_module : pyval) (rt : runtime)
    : result unit * runtime :=
  match instrument_grpc rt with
  | (Raise e, rt1) => (Raise e, rt1)
  | (Ok _, rt1) =>
      match GenerativeModel rt1 with
      | Raise e =>
          if isinstance_exn e ImportError then (Ok tt, rt1) else (Raise e, rt1)
      | Ok original_generate_content =>
          (Ok tt,
           MkRuntime (grpc_instrumentor rt1) (google_generativeai rt1)
                     (Ok (wrapped_method original_generate_content))
                     (grpc_instrumented rt1))
      end
  end.

(** The module object bound to [genai]. *)
Definition genai : pyval := VObj "module" "<module 'google.generativeai'>" [].

(** [instrument()] of [agentbay/llms/gemini/__init__.py] *)
Definition instrument (rt : runtime) : result unit * runtime :=
  match google_generativeai rt with
  | Raise e =>
      if isinstance_exn e ImportError then (Ok tt, rt) else (Raise e, rt)
  | Ok _ =>
      match instrument_chat genai rt with
      | (Raise e, rt') =>
          if isinstance_exn e ImportError then (Ok tt, rt') else (Raise e, rt')
      | (Ok _, rt') => (Ok tt, rt')
      end
  end.

(** A method that does not touch the tracer. *)
Definition untraced
    (original : pyval -> list pyval -> gmap string pyval -> result pyval)
    : method :=
  fun self args kwargs finished => (original self args kwargs, finished).

(** The method the class holds after the calls so far, if it can be
    imported. *)
Definition current_method (rt : runtime) : option method :=
  match GenerativeModel rt with
  | Ok m => Some m
  | Raise _ => None
  end.

End Instrument.

Import Instrument.

(** ** Sequences of client calls *)

Module Lifecycle.

(** A call on the [AgentBay] class or on one of its instances. *)
Inductive call : Type :=
| Initialize (api_key api_url : option string)
| GetInstance
| Shutdown (self : AgentBay).

Definition is_initialize (c : call) : bool :=
  match c with
  | Initialize _ _ => true
  | _ => false
  end.

(** The instances whose [shutdown] the calls run, in order. *)
Fixpoint shutdowns (calls : list call) : list nat :=
  match calls with
  | [] => []
  | Shutdown self :: calls' => ident self :: shutdowns calls'
  | _ :: calls' => shutdowns calls'
  end.

Section Run.

Variable resolve_api_key : option string -> option string.
Variable resolve_api_url : option string -> option string.

(** The process after one call, whatever the call returned or raised. *)
Definition run_call (p : process) (c : call) : process :=
  match c with
  | Initialize api_key api_url =>
      (initialize resolve_api_key resolve_api_url api_key api_url p).2
  | GetInstance => (get_instance p).2
  | Shutdown self => shutdown self p
  end.

Definition run (calls : list call) (p : process) : process :=
  foldl run_call p calls.

End Run.

End Lifecycle.

Import Lifecycle.

(** ** A response whose text is a property *)

Module Reading.

(** The wrapper above reads [response.text] as a plain attribute.  On the
    response class of the Gemini SDK [text] is a property, and its getter
    raises when the response has no text part.  Here the statement that
    records the text, and the wrapper around it, are written over what
    reading [response.text] gives, a value or an exception. *)

Definition AttributeError : exn_class := UserClass "AttributeError" Exception.

(** Reading [o.name] when it is a plain attribute: the value, or an
    [AttributeError] when the object has none. *)
Definition read_attr (o : pyval) (name : string) : result pyval :=
  match lookup_attr o name with
  | Some v => Ok v
  | None =>
      Raise (MkExn AttributeError
                   ("'" +:+ type_name o +:+ "' object has no attribute '"
                    +:+ name +:+ "'"))
  end.

(** [hasattr(o, name)], given what reading [o.name] gives: only an
    [AttributeError] counts as absence, any other exception goes on to the
    caller. *)
Definition hasattr_read (read : result pyval) : result bool :=
  match read with
  | Ok _ => Ok true
  | Raise e =>
      if isinstance_exn e AttributeError then Ok false else Raise e
  end.

Local Open Scope span_scope.

(** [if hasattr(response, 'text') and response.text:
        span.set_attribute("llm.response.content", str(response.text))],
    with [text] what each reading of [response.text] gives. *)
Definition record_text_read (text : result pyval) : SpanM unit :=
  present <- lift (hasattr_read text) ;;
  if (present : bool) then
    t <- lift text ;;
    if truthy t then
      t' <- lift text ;;
      set_attribute "llm.response.content" (VStr (str t'))
    else ret tt
  else ret tt.

Section Wrapper.

(** What reading [response.text] gives for a response. *)
Variable text_of : pyval -> result pyval.

Variable original_generate_content :
  pyval -> list pyval -> gmap string pyval -> result pyval.

(** The statements inside the [with] block. *)
Definition traced_call_reading (self : pyval) (args : list pyval)
    (kwargs : gmap string pyval) (model contents tools : pyval)
    : SpanM pyval :=
  set_attribute "llm.system" (VStr "gemini") ;;;
  set_attribute "llm.request.model" model ;;;
  set_attribute "llm.request.messages" (VStr (str contents)) ;;;
  record_tools tools ;;;
  try_except
    (response <- lift (original_generate_content self args kwargs) ;;
     record_text_read (text_of response) ;;;
     record_function_calls response ;;;
     record_usage response ;;;
     set_status (MkStatus OK None) ;;;
     ret response)
    [Exception]
    (fun e =>
       record_exception e ;;;
       set_status (MkStatus ERROR (Some (exn_str e))) ;;;
       raise e).

Definition wrapped_generate_content_reading (self : pyval)
    (args : list pyval) (kwargs : gmap string pyval) (finished : list span)
    : result pyval * list span :=
  let model := getattr self "model_name" (VStr "unknown") in
  let contents :=
    match args with
    | a :: _ => a
    | [] => default (VList []) (kwargs !! "contents")
    end in
  let tools := default (VList []) (kwargs !! "tools") in
  let span_name := "gemini.chat.generate_content " +:+ str model in
  start_as_current_span span_name
    (traced_call_reading self args kwargs model contents tools) finished.

End Wrapper.

(** A reply that carries a function call and no text part: one candidate,
    no function calls on it, a usage record; reading its [text] raises. *)
Definition function_call_reply : pyval :=
  VObj "GenerateContentResponse" "<GenerateContentResponse>"
       [("candidates", VList [VObj "Candidate" "<Candidate>" []]);
        ("usage_metadata", Sample.usage_3_2_5)].

Definition no_text_part : pyexn :=
  MkExn ValueError "Could not convert `part.function_call` to text.".

Definition text_of_reply (response : pyval) : result pyval :=
  Raise no_text_part.

End Reading.

Import Reading.

(** ** The first candidate *)

Module FirstCandidate.




End FirstCandidate.

Import FirstCandidate.

(** ** Python builtins: facts *)

Section PyvalInduction.

Variable P : pyval -> Prop.
Hypothesis HNone : P VNone.
Hypothesis HBool : forall b, P (VBool b).
Hypothesis HInt : forall z, P (VInt z).
Hypothesis HStr : forall s, P (VStr s).
Hypothesis HList : forall xs, Forall P xs -> P (VList xs).
Hypothesis HDict :
  forall kvs, Forall (fun kv => P kv.1 /\ P kv.2) kvs -> P (VDict kvs).
Hypothesis HObj :
  forall cls r attrs, Forall (fun a => P a.2) attrs -> P (VObj cls r attrs).

(** Induction on a value, with the hypothesis for every item of a list,
    every key and value of a dict and every attribute of an object. *)
Lemma pyval_nested_ind : forall v, P v.
Proof.
  fix IH 1. intros [ | b | z | s | xs | kvs | cls r attrs ].
  - exact HNone.
  - apply HBool.
  - apply HInt.
  - apply HStr.
  - apply HList. induction xs as [ | x xs IHxs ]; constructor; [ apply IH | exact IHxs ].
  - apply HDict. induction kvs as [ | [k v] kvs IHkvs ]; constructor;
      [ split; apply IH | exact IHkvs ].
  - apply HObj. induction attrs as [ | [k v] attrs IHattrs ]; constructor;
      [ apply IH | exact IHattrs ].
Qed.

End PyvalInduction.

Example str_of_list :
  str (VList [VStr "a"; VInt (-2); VNone; VBool true]) = "['a', -2, None, True]".
Proof. reflexivity. Qed.

Example json_of_list :
  json_dumps (VList [VInt 1; VNone; VBool true; VList []])
  = Ok "[1, null, true, []]".
Proof. reflexivity. Qed.

Example json_refuses_objects :
  json_dumps (VList [VInt 1; Sample.weather_tool])
  = Raise (MkExn TypeError "Object of type Tool is not JSON serializable").
Proof. reflexivity. Qed.

Example keyboard_interrupt_is_no_Exception :
  issubclass KeyboardInterrupt Exception = false
  /\ issubclass KeyError Exception = true
  /\ issubclass ConfigurationError Exception = true.
Proof. repeat split. Qed.

Lemma sequence_raise {A : Type} (l : list (result A)) (e : pyexn) :
  sequence l = Raise e -> In (Raise e) l.
Proof.
  induction l as [ | [a | e'] l IH ]; simpl; intros H.
  - discriminate.
  - destruct (sequence l); [ discriminate | ]. right. apply IH. congruence.
  - left. congruence.
Qed.

Lemma json_key_raise (k : pyval) (e : pyexn) :
  json_key k = Raise e -> exn_cls e = TypeError.
Proof.
  destruct k as [ | [] | | | | | ]; simpl; intros H; inversion H; reflexivity.
Qed.

(** The encoder refuses a value with a [TypeError] and nothing else. *)
Lemma json_dumps_raise (v : pyval) :
  forall e, json_dumps v = Raise e -> exn_cls e = TypeError.
Proof.
  induction v as [ | b | z | s | xs IH | kvs IH | cls r attrs _ ]
    using pyval_nested_ind; intros e H.
  - discriminate.
  - destruct b; discriminate.
  - discriminate.
  - discriminate.
  - simpl in H.
    destruct (sequence (map json_dumps xs)) as [ l | e' ] eqn:Hseq;
      [ discriminate | ].
    inversion H; subst e'. apply sequence_raise in Hseq.
    apply in_map_iff in Hseq as (x & Hx & Hin).
    rewrite Forall_forall in IH. apply (IH x); [ | exact Hx ].
    apply list_elem_of_In. exact Hin.
  - simpl in H.
    destruct (sequence _) as [ l | e' ] eqn:Hseq; [ discriminate | ].
    inversion H; subst e'. apply sequence_raise in Hseq.
    apply in_map_iff in Hseq as ([k v] & Hkv & Hin).
    rewrite Forall_forall in IH.
    destruct (IH (k, v)) as [_ IHv]; [ apply list_elem_of_In; exact Hin | ].
    simpl in Hkv, IHv. unfold json_item in Hkv.
    destruct (json_key k) as [ ks | ek ] eqn:Hk.
    + destruct (json_dumps v) as [ vs | ev ]; [ discriminate | ].
      apply IHv. congruence.
    + apply (json_key_raise k). congruence.
  - simpl in H. inversion H. reflexivity.
Qed.

(** ** The span monad: frames *)

Lemma frame_refl (keys : list string) (sp : span) : frame keys sp sp.
Proof. repeat split. Qed.

Lemma frame_trans (keys : list string) (sp sp' sp'' : span) :
  frame keys sp sp' -> frame keys sp' sp'' -> frame keys sp sp''.
Proof.
  intros (Hn & Hs & He & Hd & Ha) (Hn' & Hs' & He' & Hd' & Ha').
  repeat split; try congruence.
  intros k Hk. rewrite Ha' by exact Hk. apply Ha, Hk.
Qed.

Lemma frame_mono (keys keys' : list string) (sp sp' : span) :
  keys ⊆ keys' -> frame keys sp sp' -> frame keys' sp sp'.
Proof.
  intros Hsub (Hn & Hs & He & Hd & Ha). repeat split; try assumption.
  intros k Hk. apply Ha. intros Hin. apply Hk, Hsub, Hin.
Qed.

Lemma frame_set_attribute (keys : list string) (key : string) (v : pyval)
    (sp : span) :
  key ∈ keys -> frame keys sp (set_attribute key v sp).2.
Proof.
  intros Hin. repeat split. simpl. intros k Hk.
  apply lookup_insert_ne. intros ->. exact (Hk Hin).
Qed.

Lemma writes_ret {A : Type} (keys : list string) (a : A) : writes keys (ret a).
Proof. intros sp. apply frame_refl. Qed.

Lemma writes_lift {A : Type} (keys : list string) (r : result A) :
  writes keys (lift r).
Proof. intros sp. apply frame_refl. Qed.

Lemma writes_set_attribute (keys : list string) (key : string) (v : pyval) :
  key ∈ keys -> writes keys (set_attribute key v).
Proof. intros Hin sp. apply frame_set_attribute, Hin. Qed.

Lemma writes_bind {A B : Type} (keys : list string) (c : SpanM A)
    (k : A -> SpanM B) :
  writes keys c -> (forall a, writes keys (k a)) -> writes keys (bind c k).
Proof.
  intros Hc Hk sp. unfold bind. specialize (Hc sp).
  destruct (c sp) as [[a | e] sp']; simpl in *.
  - eapply frame_trans; [ exact Hc | apply Hk ].
  - exact Hc.
Qed.

Lemma writes_try_except {A : Type} (keys : list string) (body : SpanM A)
    (classes : list exn_class) (handler : pyexn -> SpanM A) :
  writes keys body -> (forall e, writes keys (handler e)) ->
  writes keys (try_except body classes handler).
Proof.
  intros Hb Hh sp. unfold try_except. specialize (Hb sp).
  destruct (body sp) as [[a | e] sp']; simpl in *; [ exact Hb | ].
  destruct (existsb _ _); [ | exact Hb ].
  eapply frame_trans; [ exact Hb | apply Hh ].
Qed.

Lemma writes_mono {A : Type} (keys keys' : list string) (c : SpanM A) :
  keys ⊆ keys' -> writes keys c -> writes keys' c.
Proof. intros Hsub Hc sp. eapply frame_mono; [ exact Hsub | apply Hc ]. Qed.

Lemma pure_writes {A : Type} (keys : list string) (c : SpanM A) (a : A) :
  pure c a -> writes keys c.
Proof. intros Hc sp. rewrite Hc. apply frame_refl. Qed.

Lemma pure_bind {A B : Type} (c : SpanM A) (a : A) (k : A -> SpanM B) (sp : span) :
  pure c a -> bind c k sp = k a sp.
Proof. intros Hc. unfold bind. rewrite Hc. reflexivity. Qed.

(** ** The serialization helpers never raise *)

Lemma isinstance_TypeError (e : pyexn) :
  exn_cls e = TypeError ->
  existsb (isinstance_exn e) [TypeError; ValueError] = true.
Proof. intros H. unfold isinstance_exn. rewrite H. reflexivity. Qed.

Lemma dumps_or_str_pure (v : pyval) : pure (dumps_or_str v) (json_or_str v).
Proof.
  intros sp. unfold dumps_or_str, try_except, lift, json_or_str.
  destruct (json_dumps v) as [ s | e ] eqn:H; [ reflexivity | ].
  rewrite isinstance_TypeError by (apply (json_dumps_raise v), H).
  reflexivity.
Qed.

Lemma arguments_entry_pure (func_call : pyval) :
  pure (arguments_entry (getattr func_call "arguments" VNone))
       (arguments_text func_call).
Proof.
  intros sp. unfold arguments_text, getattr.
  destruct (lookup_attr func_call "arguments") as [ a | ]; [ | reflexivity ].
  destruct a; try reflexivity; simpl;
    rewrite pure_bind with (a := json_or_str _) by apply dumps_or_str_pure;
    reflexivity.
Qed.

Lemma optional_entry_eq (func_call : pyval) (key : string) :
  optional_entry func_call key =
  match text_if_set func_call key with
  | Some t => [(VStr key, t)]
  | None => []
  end.
Proof.
  unfold optional_entry, text_if_set.
  destruct (lookup_attr func_call key) as [ v | ]; [ | reflexivity ].
  destruct (truthy v); reflexivity.
Qed.

Lemma func_data_pure (func_call : pyval) :
  pure (func_data func_call) (function_call_record func_call).
Proof.
  intros sp. unfold func_data.
  rewrite pure_bind with (a := arguments_text func_call)
    by apply arguments_entry_pure.
  unfold ret, function_call_record. rewrite !optional_entry_eq. reflexivity.
Qed.

Lemma function_calls_data_pure (func_calls : list pyval) :
  pure (function_calls_data func_calls) (map function_call_record func_calls).
Proof.
  induction func_calls as [ | fc rest IH ]; intros sp; simpl; [ reflexivity | ].
  rewrite pure_bind with (a := function_call_record fc) by apply func_data_pure.
  rewrite pure_bind with (a := map function_call_record rest) by exact IH.
  reflexivity.
Qed.

(** ** The request attributes *)

Lemma record_tools_eq (tools : pyval) (sp : span) :
  record_tools tools sp =
  (Ok tt,
   if truthy tools then
     let sp1 := (set_attribute "llm.request.tools"
                               (VStr (tools_text tools)) sp).2 in
     match tools with
     | VList xs =>
         (set_attribute "llm.request.tool_count"
                        (VInt (Z.of_nat (length xs))) sp1).2
     | _ => sp1
     end
   else sp).
Proof.
  unfold record_tools. destruct (truthy tools) eqn:Ht; [ | reflexivity ].
  assert (Htext :
    try_except (if is_list_or_dict tools then lift (json_dumps tools)
                else ret (str tools)) [TypeError; ValueError]
               (fun _ => ret (str tools)) sp = (Ok (tools_text tools), sp)).
  { unfold tools_text. destruct (is_list_or_dict tools); [ | reflexivity ].
    apply dumps_or_str_pure. }
  unfold bind at 1. rewrite Htext.
  destruct tools; reflexivity.
Qed.

Lemma record_tools_writes (tools : pyval) :
  writes ["llm.request.tools"; "llm.request.tool_count"] (record_tools tools).
Proof.
  intros sp. rewrite record_tools_eq. cbv zeta. unfold snd at 1.
  destruct (truthy tools); [ | apply frame_refl ].
  assert (H1 : frame ["llm.request.tools"; "llm.request.tool_count"] sp
                 (set_attribute "llm.request.tools" (VStr (tools_text tools)) sp).2)
    by (apply frame_set_attribute; in_keys).
  destruct tools; try exact H1.
  eapply frame_trans; [ exact H1 | apply frame_set_attribute; in_keys ].
Qed.

Lemma request_span_eq (model contents tools : pyval) (sp : span) :
  request_span model contents tools sp =
  (record_tools tools
     (MkSpan (name sp)
        (<["llm.request.messages" := VStr (str contents)]>
           (<["llm.request.model" := model]>
              (<["llm.system" := VStr "gemini"]> (attributes sp))))
        (status sp) (events sp) (ended sp))).2.
Proof. reflexivity. Qed.

Lemma request_span_frame (model contents tools : pyval) (sp : span) :
  frame request_keys sp (request_span model contents tools sp).
Proof.
  unfold request_span.
  repeat (apply writes_bind; [ | intros _ ]);
    try (apply writes_set_attribute; in_keys).
  eapply writes_mono; [ | apply record_tools_writes ].
  intros k Hk. apply list_elem_of_In in Hk. apply list_elem_of_In.
  simpl in *. tauto.
Qed.

(** The three attributes every call gets. *)
Lemma request_span_attributes (model contents tools : pyval) (sp : span) :
  let sp0 := request_span model contents tools sp in
  attributes sp0 !! "llm.system" = Some (VStr "gemini")
  /\ attributes sp0 !! "llm.request.model" = Some model
  /\ attributes sp0 !! "llm.request.messages" = Some (VStr (str contents)).
Proof.
  cbv zeta. rewrite request_span_eq.
  pose proof (record_tools_writes tools) as Hw.
  match goal with |- context [ record_tools tools ?s ] => specialize (Hw s) end.
  destruct Hw as (_ & _ & _ & _ & Ha).
  rewrite !Ha by in_keys. simpl.
  repeat split.
  - rewrite !lookup_insert_ne by done. apply lookup_insert_eq.
  - rewrite lookup_insert_ne by done. apply lookup_insert_eq.
  - apply lookup_insert_eq.
Qed.

(** The tools attributes of a call. *)
Lemma request_span_tools (model contents tools : pyval) (sp : span) :
  attributes sp !! "llm.request.tools" = None ->
  attributes sp !! "llm.request.tool_count" = None ->
  let sp0 := request_span model contents tools sp in
  attributes sp0 !! "llm.request.tools" =
    (if truthy tools then Some (VStr (tools_text tools)) else None)
  /\ attributes sp0 !! "llm.request.tool_count" =
    (if truthy tools then
       match tools with
       | VList xs => Some (VInt (Z.of_nat (length xs)))
       | _ => None
       end
     else None).
Proof.
  intros H1 H2. cbv zeta. rewrite request_span_eq, record_tools_eq.
  cbv zeta. unfold snd at 1 3.
  destruct (truthy tools).
  - destruct tools; simpl;
      repeat first [ rewrite lookup_insert_eq | rewrite lookup_insert_ne by done ];
      auto.
  - simpl. rewrite !lookup_insert_ne by done. auto.
Qed.

(** ** The wrapper, step by step *)

(** Leaving the block changes neither the attributes nor the name of the
    span. *)
Lemma on_exit_attrs {A : Type} (r : result A) (sp : span) :
  attributes (on_exit r sp) = attributes sp.
Proof.
  destruct r as [ a | e ]; [ reflexivity | ]. simpl.
  destruct (isinstance_exn e Exception); reflexivity.
Qed.

Lemma on_exit_name {A : Type} (r : result A) (sp : span) :
  name (on_exit r sp) = name sp.
Proof.
  destruct r as [ a | e ]; [ reflexivity | ]. simpl.
  destruct (isinstance_exn e Exception); reflexivity.
Qed.

Section WrapperFacts.

Variable original : pyval -> list pyval -> gmap string pyval -> result pyval.

Lemma traced_call_eq (self : pyval) (args : list pyval)
    (kwargs : gmap string pyval) (model contents tools : pyval) (sp : span) :
  traced_call original self args kwargs model contents tools sp =
  outcome original self args kwargs (request_span model contents tools sp).
Proof.
  rewrite request_span_eq. unfold traced_call.
  unfold bind at 1 2 3 4. unfold set_attribute at 1 2 3.
  cbn [name attributes status events ended].
  rewrite record_tools_eq. cbn [snd].
  unfold outcome, try_except, on_exception.
  unfold bind at 1, lift at 1.
  destruct (original self args kwargs) as [ response | e ].
  - unfold bind at 1.
    destruct (record_response response _) as [[ [] | e ] sp1]; [ reflexivity | ].
    cbn [existsb]. rewrite orb_false_r.
    destruct (isinstance_exn e Exception); reflexivity.
  - cbn [existsb]. rewrite orb_false_r.
    destruct (isinstance_exn e Exception); reflexivity.
Qed.

(** The wrapper adds one span, ended, and returns or raises as the [try]
    statement does. *)
Lemma wrapped_generate_content_eq (self : pyval) (args : list pyval)
    (kwargs : gmap string pyval) (finished : list span) :
  wrapped_generate_content original self args kwargs finished =
  ((outcome original self args kwargs (started self args kwargs)).1,
   (finished ++
    [end_span
       (on_exit (outcome original self args kwargs (started self args kwargs)).1
          (outcome original self args kwargs (started self args kwargs)).2)])%list).
Proof.
  unfold wrapped_generate_content, start_as_current_span.
  rewrite traced_call_eq. fold (contents_of args kwargs) (tools_of kwargs).
  fold (started self args kwargs).
  destruct (outcome _ _ _ _ _); reflexivity.
Qed.

End WrapperFacts.

Lemma on_exception_attributes (e : pyexn) (sp : span) :
  attributes (on_exception e sp) = attributes sp
  /\ name (on_exception e sp) = name sp
  /\ ended (on_exception e sp) = ended sp.
Proof. unfold on_exception. destruct (isinstance_exn e Exception); auto. Qed.

Lemma started_frame (self : pyval) (args : list pyval)
    (kwargs : gmap string pyval) :
  let model := getattr self "model_name" (VStr "unknown") in
  frame request_keys (new_span ("gemini.chat.generate_content " +:+ str model))
        (started self args kwargs).
Proof. apply request_span_frame. Qed.

(** No response attribute is on the span when the original is called. *)
Lemma started_no_response (self : pyval) (args : list pyval)
    (kwargs : gmap string pyval) (k : string) :
  k ∈ response_keys -> attributes (started self args kwargs) !! k = None.
Proof.
  intros Hk. destruct (started_frame self args kwargs) as (_ & _ & _ & _ & Ha).
  rewrite Ha; [ apply lookup_empty | ].
  intros Hin. apply list_elem_of_In in Hk, Hin. simpl in Hk, Hin.
  repeat destruct Hk as [ <- | Hk ]; try contradiction;
    repeat destruct Hin as [ Hin | Hin ]; try discriminate; contradiction.
Qed.

(** ** The response attributes *)

Lemma record_text_eq (response : pyval) (sp : span) :
  record_text response sp =
  (Ok tt,
   match text_if_set response "text" with
   | Some t => (set_attribute "llm.response.content" t sp).2
   | None => sp
   end).
Proof.
  unfold record_text, text_if_set.
  destruct (lookup_attr response "text") as [ t | ]; [ | reflexivity ].
  destruct (truthy t); reflexivity.
Qed.

Lemma record_counter_eq (usage : pyval) (field key : string) (sp : span) :
  record_counter usage field key sp =
  (Ok tt,
   match lookup_attr usage field with
   | Some n => (set_attribute key n sp).2
   | None => sp
   end).
Proof.
  unfold record_counter. destruct (lookup_attr usage field); reflexivity.
Qed.

Lemma record_counter_writes (keys : list string) (usage : pyval)
    (field key : string) :
  key ∈ keys -> writes keys (record_counter usage field key).
Proof.
  intros Hk sp. rewrite record_counter_eq. cbn [snd].
  destruct (lookup_attr usage field);
    [ apply frame_set_attribute, Hk | apply frame_refl ].
Qed.

Lemma record_usage_returns (response : pyval) (sp : span) :
  (record_usage response sp).1 = Ok tt.
Proof.
  unfold record_usage.
  destruct (lookup_attr response "usage_metadata") as [ u | ]; [ | reflexivity ].
  destruct (truthy u); [ | reflexivity ].
  unfold bind. rewrite !record_counter_eq. reflexivity.
Qed.

Lemma record_usage_writes (response : pyval) :
  writes usage_keys (record_usage response).
Proof.
  unfold record_usage.
  destruct (lookup_attr response "usage_metadata") as [ u | ];
    [ | apply writes_ret ].
  destruct (truthy u); [ | apply writes_ret ].
  repeat (apply writes_bind; [ | intros _ ]);
    apply record_counter_writes; in_keys.
Qed.

Lemma record_text_writes (response : pyval) :
  writes ["llm.response.content"] (record_text response).
Proof.
  intros sp. rewrite record_text_eq. cbn [snd].
  destruct (text_if_set response "text");
    [ apply frame_set_attribute; in_keys | apply frame_refl ].
Qed.

Lemma record_candidate_writes (candidate : pyval) :
  writes function_call_keys (record_candidate candidate).
Proof.
  unfold record_candidate.
  destruct (lookup_attr candidate "function_calls") as [ fcs | ];
    [ | apply writes_ret ].
  destruct (truthy fcs); [ | apply writes_ret ].
  apply writes_bind; [ apply writes_lift | intros func_calls ].
  apply writes_bind;
    [ eapply pure_writes, function_calls_data_pure | intros data ].
  apply writes_bind; [ eapply pure_writes, dumps_or_str_pure | intros s ].
  apply writes_bind; [ apply writes_set_attribute; in_keys | intros _ ].
  apply writes_bind; [ apply writes_lift | intros n ].
  apply writes_set_attribute; in_keys.
Qed.

Lemma record_function_calls_writes (response : pyval) :
  writes function_call_keys (record_function_calls response).
Proof.
  unfold record_function_calls.
  destruct (lookup_attr response "candidates") as [ cs | ];
    [ | apply writes_ret ].
  destruct (truthy cs); [ | apply writes_ret ].
  apply writes_bind; [ apply writes_lift | intros c ].
  apply record_candidate_writes.
Qed.

Lemma record_response_eq (response : pyval) (sp : span) :
  record_response response sp =
  match record_function_calls response (record_text response sp).2 with
  | (Ok _, sp2) => (Ok tt, (record_usage response sp2).2)
  | (Raise e, sp2) => (Raise e, sp2)
  end.
Proof.
  unfold record_response. unfold bind at 1. rewrite record_text_eq. cbn [snd].
  unfold bind at 1.
  destruct (record_function_calls response _) as [[ [] | e ] sp2]; [ | reflexivity ].
  pose proof (record_usage_returns response sp2) as Hu.
  destruct (record_usage response sp2) as [ru sp3]. simpl in Hu. subst ru.
  reflexivity.
Qed.

Lemma record_response_writes (response : pyval) :
  writes response_keys (record_response response).
Proof.
  unfold record_response.
  apply writes_bind; [ | intros _; apply writes_bind; [ | intros _ ] ].
  - eapply writes_mono; [ | apply record_text_writes ].
    intros k Hk. apply list_elem_of_In in Hk. apply list_elem_of_In.
    simpl in *. tauto.
  - eapply writes_mono; [ | apply record_function_calls_writes ].
    intros k Hk. apply list_elem_of_In in Hk. apply list_elem_of_In.
    simpl in *. tauto.
  - eapply writes_mono; [ | apply record_usage_writes ].
    intros k Hk. apply list_elem_of_In in Hk. apply list_elem_of_In.
    simpl in *. tauto.
Qed.

(** Without function calls the candidates block does nothing. *)
Lemma record_function_calls_none (response : pyval) (sp : span) :
  no_function_calls response = true ->
  record_function_calls response sp = (Ok tt, sp).
Proof.
  unfold no_function_calls, record_function_calls.
  destruct (lookup_attr response "candidates") as [ cs | ]; [ | reflexivity ].
  destruct cs as [ | b | z | s | [ | c rest ] | kvs | cls r attrs ];
    simpl; intros H; try reflexivity;
    try (apply negb_true_iff in H; rewrite H; reflexivity);
    try discriminate.
  apply andb_true_iff in H as [Hc _]. apply negb_true_iff in Hc.
  unfold hasattr in Hc. unfold bind, lift, record_candidate.
  destruct (lookup_attr c "function_calls"); [ discriminate | reflexivity ].
Qed.

(** The content attribute after the response has been read. *)
Lemma record_response_content (response : pyval) (sp : span) :
  attributes (record_response response sp).2 !! "llm.response.content" =
  match text_if_set response "text" with
  | Some t => Some t
  | None => attributes sp !! "llm.response.content"
  end.
Proof.
  rewrite record_response_eq.
  pose proof (record_function_calls_writes response
                (record_text response sp).2) as (_ & _ & _ & _ & Hf).
  destruct (record_function_calls response _) as [[ [] | e ] sp2]; cbn [snd] in *.
  - destruct (record_usage_writes response sp2) as (_ & _ & _ & _ & Hu).
    rewrite Hu by in_keys. rewrite Hf by in_keys.
    rewrite record_text_eq. cbn [snd].
    destruct (text_if_set response "text"); [ apply lookup_insert_eq | reflexivity ].
  - rewrite Hf by in_keys. rewrite record_text_eq. cbn [snd].
    destruct (text_if_set response "text"); [ apply lookup_insert_eq | reflexivity ].
Qed.

(** A counter that is not there leaves its key as it was. *)
Lemma record_usage_no_counter (response : pyval) (field key : string) (sp : span) :
  (field, key) ∈ counters ->
  no_counter response field = true ->
  attributes (record_usage response sp).2 !! key = attributes sp !! key.
Proof.
  intros Hin. unfold no_counter, record_usage.
  destruct (lookup_attr response "usage_metadata") as [ u | ]; [ | reflexivity ].
  destruct (truthy u); [ | reflexivity ]. simpl. unfold hasattr.
  intros H. apply negb_true_iff in H.
  unfold bind. rewrite !record_counter_eq. cbn [snd].
  apply list_elem_of_In in Hin. simpl in Hin.
  destruct Hin as [ Hin | [ Hin | [ Hin | [] ] ] ]; inversion Hin; subst field key;
    destruct (lookup_attr u "prompt_token_count");
    destruct (lookup_attr u "candidates_token_count");
    destruct (lookup_attr u "total_token_count");
    try discriminate; simpl;
    rewrite ?lookup_insert_ne by done; reflexivity.
Qed.

(** The candidate block, step by step. *)
Lemma record_candidate_eq (candidate : pyval) (sp : span) :
  record_candidate candidate sp =
  match lookup_attr candidate "function_calls" with
  | Some fcs =>
      if truthy fcs then
        match iterate fcs with
        | Ok items =>
            let sp1 :=
              (set_attribute "llm.response.function_calls"
                 (VStr (json_or_str (VList (map function_call_record items))))
                 sp).2 in
            match len fcs with
            | Ok n =>
                (Ok tt,
                 (set_attribute "llm.response.function_call_count" (VInt n)
                    sp1).2)
            | Raise e => (Raise e, sp1)
            end
        | Raise e => (Raise e, sp)
        end
      else (Ok tt, sp)
  | None => (Ok tt, sp)
  end.
Proof.
  unfold record_candidate.
  destruct (lookup_attr candidate "function_calls") as [ fcs | ];
    [ | reflexivity ].
  destruct (truthy fcs); [ | reflexivity ].
  unfold bind at 1, lift at 1.
  destruct (iterate fcs) as [ items | e ]; [ | reflexivity ].
  rewrite pure_bind with (a := map function_call_record items)
    by apply function_calls_data_pure.
  rewrite pure_bind
    with (a := json_or_str (VList (map function_call_record items)))
    by apply dumps_or_str_pure.
  unfold bind, lift. cbn [set_attribute]. cbv zeta.
  destruct (len fcs); reflexivity.
Qed.

(** With a list for [response.candidates], only its first item is read. *)
Lemma record_function_calls_first (response candidate : pyval)
    (rest : list pyval) (sp : span) :
  lookup_attr response "candidates" = Some (VList (candidate :: rest)) ->
  record_function_calls response sp = record_candidate candidate sp.
Proof.
  intros H. unfold record_function_calls. rewrite H. reflexivity.
Qed.



(** A counter that is there is recorded as it is. *)
Lemma record_usage_counter (response usage n : pyval) (field key : string)
    (sp : span) :
  (field, key) ∈ counters ->
  lookup_attr response "usage_metadata" = Some usage ->
  truthy usage = true ->
  lookup_attr usage field = Some n ->
  attributes (record_usage response sp).2 !! key = Some n.
Proof.
  intros Hin Hu Ht Hn. unfold record_usage. rewrite Hu, Ht.
  unfold bind. rewrite !record_counter_eq. cbn [snd].
  apply list_elem_of_In in Hin. simpl in Hin.
  destruct Hin as [ Hin | [ Hin | [ Hin | [] ] ] ]; inversion Hin; subst field key;
    rewrite Hn;
    destruct (lookup_attr usage "prompt_token_count");
    destruct (lookup_attr usage "candidates_token_count");
    destruct (lookup_attr usage "total_token_count");
    try discriminate; simpl;
    rewrite ?lookup_insert_ne by done; apply lookup_insert_eq.
Qed.

(** ** The failure path *)

Lemma started_events (self : pyval) (args : list pyval)
    (kwargs : gmap string pyval) :
  events (started self args kwargs) = []
  /\ status (started self args kwargs) = MkStatus UNSET None
  /\ ended (started self args kwargs) = false
  /\ name (started self args kwargs) =
     "gemini.chat.generate_content "
     +:+ str (getattr self "model_name" (VStr "unknown")).
Proof.
  destruct (started_frame self args kwargs) as (Hn & Hs & He & Hd & _).
  rewrite Hn, Hs, He, Hd. repeat split.
Qed.

(** C1, as amended.  When the original raises [e], the wrapped call raises
    that same [e] and adds one ended span.  If [e] is an instance of
    [Exception], the wrapper, when it re-raises, has recorded [e] on the
    span and set the status to ERROR with [str(e)], and the ended span has
    status ERROR and [e] among its recorded exceptions; if it is not (a
    [KeyboardInterrupt], a [SystemExit]), nothing is recorded and no status
    is set. *)
Theorem wrapper_reraises
    (original : pyval -> list pyval -> gmap string pyval -> result pyval)
    (self : pyval) (args : list pyval) (kwargs : gmap string pyval)
    (finished : list span) (e : pyexn) :
  original self args kwargs = Raise e ->
  exists sp_raise sp,
    leaving original self args kwargs = (Raise e, sp_raise)
    /\ wrapped_generate_content original self args kwargs finished
       = (Raise e, (finished ++ [sp])%list)
    /\ ended sp = true
    /\ if isinstance_exn e Exception then
         marked_error e sp_raise
         /\ e ∈ events sp
         /\ status_code (status sp) = ERROR
       else events sp = [] /\ status sp = MkStatus UNSET None.
Proof.
  intros H. rewrite wrapped_generate_content_eq.
  unfold leaving. rewrite traced_call_eq.
  fold (started self args kwargs). unfold outcome. rewrite H. cbn [fst snd].
  eexists _, _. split; [ reflexivity | ]. split; [ reflexivity | ].
  split; [ reflexivity | ].
  destruct (started_events self args kwargs) as (He & Hs & _).
  unfold on_exit, on_exception, marked_error.
  destruct (isinstance_exn e Exception); cbn; rewrite ?He, ?Hs.
  - repeat split. cbn. set_solver.
  - auto.
Qed.

Lemma wrapper_reraises_witness :
  exists sp_raise sp,
    leaving (Sample.raising Sample.quota_exceeded) Sample.gemini_pro
      [VStr "hello"] ∅ = (Raise Sample.quota_exceeded, sp_raise)
    /\ wrapped_generate_content (Sample.raising Sample.quota_exceeded)
         Sample.gemini_pro [VStr "hello"] ∅ []
       = (Raise Sample.quota_exceeded, [sp])
    /\ ended sp = true
    /\ marked_error Sample.quota_exceeded sp_raise
    /\ Sample.quota_exceeded ∈ events sp
    /\ status_code (status sp) = ERROR.
Proof.
  exact (wrapper_reraises (Sample.raising Sample.quota_exceeded)
           Sample.gemini_pro [VStr "hello"] ∅ [] Sample.quota_exceeded
           eq_refl).
Defined.

(** C1 as stated fails for an exception outside [Exception]: a
    [KeyboardInterrupt] raised by the original passes through the wrapper
    without being recorded and without an ERROR status. *)
Lemma wrapper_skips_interrupt :
  Sample.raising Sample.interrupted Sample.gemini_pro [VStr "hello"] ∅
  = Raise Sample.interrupted
  /\ ~ failure_contract (Sample.raising Sample.interrupted)
         Sample.gemini_pro [VStr "hello"] ∅ Sample.interrupted.
Proof.
  split; [ reflexivity | ].
  intros (sp & Hcall & Hev & _).
  rewrite wrapped_generate_content_eq in Hcall.
  injection Hcall as Hsp. subst sp.
  unfold outcome, Sample.raising, on_exception in Hev. simpl in Hev.
  destruct (started_events Sample.gemini_pro [VStr "hello"] ∅) as (He & _).
  rewrite He in Hev. discriminate.
Qed.

(** ** The success path *)

(** Reading a list-shaped response raises nothing. *)
Lemma record_response_list_shaped (response : pyval) (sp : span) :
  list_shaped response = true ->
  (record_response response sp).1 = Ok tt.
Proof.
  intros Hs. rewrite record_response_eq.
  assert (Hf : (record_function_calls response
                  (record_text response sp).2).1 = Ok tt).
  { unfold list_shaped in Hs. unfold record_function_calls.
    destruct (lookup_attr response "candidates") as [ cs | ]; [ | reflexivity ].
    destruct cs as [ | b | z | s | [ | c rest ] | kvs | cls r attrs ];
      try reflexivity;
      try (apply negb_true_iff in Hs; rewrite Hs; reflexivity);
      try discriminate.
    cbn [truthy getitem0]. unfold bind, lift. rewrite record_candidate_eq.
    destruct (lookup_attr c "function_calls") as [ fcs | ]; [ | reflexivity ].
    destruct fcs as [ | b | z | s | fs | kvs | cls r attrs ];
      try reflexivity;
      try (apply negb_true_iff in Hs; rewrite Hs; reflexivity);
      try discriminate.
    destruct fs; reflexivity. }
  destruct (record_function_calls response _) as [[ [] | e ] sp2];
    [ reflexivity | discriminate ].
Qed.

(** C2.  A wrapped call that returns [v] has called the original on the
    receiver, the positional and the keyword arguments it was given, and
    [v] is what the original returned; the wrapper looks at the original
    through that one call only.  And the wrapped call does return: whenever
    the original returns a list-shaped response, the wrapped call returns
    that response. *)
Theorem wrapper_transparent
    (original : pyval -> list pyval -> gmap string pyval -> result pyval)
    (self : pyval) (args : list pyval) (kwargs : gmap string pyval)
    (finished : list span) (v : pyval) :
  (forall finished',
     wrapped_generate_content original self args kwargs finished
     = (Ok v, finished') ->
     original self args kwargs = Ok v
     /\ forall original',
          original' self args kwargs = original self args kwargs ->
          wrapped_generate_content original' self args kwargs finished
          = (Ok v, finished'))
  /\ (original self args kwargs = Ok v ->
      list_shaped v = true ->
      (wrapped_generate_content original self args kwargs finished).1 = Ok v).
Proof.
  split.
  - intros finished' H. split.
    + rewrite wrapped_generate_content_eq in H. unfold outcome in H.
      destruct (original self args kwargs) as [ r | e ]; [ | discriminate ].
      destruct (record_response r _) as [[ [] | e ] sp1]; [ | discriminate ].
      simpl in H. congruence.
    + intros original' Hsame. rewrite <- H.
      rewrite !wrapped_generate_content_eq. unfold outcome. rewrite Hsame.
      reflexivity.
  - intros H Hs. rewrite wrapped_generate_content_eq. cbn [fst].
    unfold outcome. rewrite H.
    pose proof (record_response_list_shaped v (started self args kwargs) Hs)
      as Hr.
    destruct (record_response v _) as [[ [] | e ] sp1];
      [ reflexivity | discriminate ].
Qed.

Lemma wrapper_transparent_witness :
  wrapped_generate_content (Sample.returning Sample.hi)
    Sample.gemini_pro [VStr "hello"] ∅ []
  = (Ok Sample.hi,
     (wrapped_generate_content (Sample.returning Sample.hi)
        Sample.gemini_pro [VStr "hello"] ∅ []).2)
  /\ Sample.returning Sample.hi Sample.gemini_pro [VStr "hello"] ∅
     = Ok Sample.hi
  /\ list_shaped Sample.hi = true.
Proof.
  destruct (wrapper_transparent (Sample.returning Sample.hi)
              Sample.gemini_pro [VStr "hello"] ∅ [] Sample.hi)
    as [Hback Hforth].
  pose proof (Hforth eq_refl eq_refl) as Hres.
  assert (H : wrapped_generate_content (Sample.returning Sample.hi)
                Sample.gemini_pro [VStr "hello"] ∅ []
              = (Ok Sample.hi,
                 (wrapped_generate_content (Sample.returning Sample.hi)
                    Sample.gemini_pro [VStr "hello"] ∅ []).2)).
  { pose proof (surjective_pairing
                  (wrapped_generate_content (Sample.returning Sample.hi)
                     Sample.gemini_pro [VStr "hello"] ∅ [])) as Hp.
    rewrite Hres in Hp. exact Hp. }
  split; [ exact H | ].
  split; [ exact (proj1 (Hback _ H)) | reflexivity ].
Defined.

Lemma text_if_set_none (o : pyval) (field : string) :
  has_truthy_attr o field = false -> text_if_set o field = None.
Proof.
  unfold has_truthy_attr, text_if_set.
  destruct (lookup_attr o field) as [ v | ]; [ | reflexivity ].
  intros ->. reflexivity.
Qed.

(** The attributes of the span at the end of the [try] statement. *)
Lemma outcome_attributes
    (original : pyval -> list pyval -> gmap string pyval -> result pyval)
    (self : pyval) (args : list pyval) (kwargs : gmap string pyval)
    (sp0 : span) :
  attributes (outcome original self args kwargs sp0).2 =
  match original self args kwargs with
  | Ok response => attributes (record_response response sp0).2
  | Raise _ => attributes sp0
  end.
Proof.
  unfold outcome. destruct (original self args kwargs) as [ r | e ].
  - destruct (record_response r sp0) as [[ [] | e ] sp1]; [ reflexivity | ].
    apply on_exception_attributes.
  - apply on_exception_attributes.
Qed.

(** The request attributes stay as they were when the original was
    called. *)
Lemma outcome_request_attributes
    (original : pyval -> list pyval -> gmap string pyval -> result pyval)
    (self : pyval) (args : list pyval) (kwargs : gmap string pyval)
    (sp0 : span) (k : string) :
  k ∉ response_keys ->
  attributes (outcome original self args kwargs sp0).2 !! k
  = attributes sp0 !! k.
Proof.
  intros Hk. rewrite outcome_attributes.
  destruct (original self args kwargs) as [ r | e ]; [ | reflexivity ].
  destruct (record_response_writes r sp0) as (_ & _ & _ & _ & Ha).
  apply Ha, Hk.
Qed.

(** The response attributes of a response without function calls. *)
Lemma record_response_no_function_calls (response : pyval) (sp : span) :
  no_function_calls response = true ->
  record_response response sp
  = (Ok tt, (record_usage response (record_text response sp).2).2).
Proof.
  intros H. rewrite record_response_eq.
  rewrite record_function_calls_none by exact H. reflexivity.
Qed.

(** X19.  When the original returns a response, the call adds one span,
    and on it, however the call ends: without a text (none, null or empty)
    there is no [llm.response.content]; without function calls under any
    candidate there is neither [llm.response.function_calls] nor
    [llm.response.function_call_count]; without a usage counter there is no
    attribute for that counter. *)
Theorem absent_fields_leave_no_attributes
    (original : pyval -> list pyval -> gmap string pyval -> result pyval)
    (self : pyval) (args : list pyval) (kwargs : gmap string pyval)
    (finished : list span) (response : pyval) :
  original self args kwargs = Ok response ->
  exists res sp,
    wrapped_generate_content original self args kwargs finished
    = (res, (finished ++ [sp])%list)
    /\ (has_truthy_attr response "text" = false ->
        attributes sp !! "llm.response.content" = None)
    /\ (no_function_calls response = true ->
        attributes sp !! "llm.response.function_calls" = None
        /\ attributes sp !! "llm.response.function_call_count" = None)
    /\ (forall field key,
          (field, key) ∈ counters ->
          no_counter response field = true ->
          attributes sp !! key = None).
Proof.
  intros H. rewrite wrapped_generate_content_eq.
  eexists _, _. split; [ reflexivity | ].
  set (sp0 := started self args kwargs).
  cbn [attributes end_span status events]. rewrite ?on_exit_attrs. rewrite outcome_attributes, H.
  split; [ | split ].
  - intros Ht. rewrite record_response_content, text_if_set_none by exact Ht.
    apply started_no_response. in_keys.
  - intros Hf.
    rewrite (record_response_no_function_calls response sp0 Hf). cbn [snd].
    destruct (record_usage_writes response (record_text response sp0).2)
      as (_ & _ & _ & _ & Hua).
    destruct (record_text_writes response sp0) as (_ & _ & _ & _ & Hta).
    rewrite !Hua, !Hta by in_keys.
    split; apply started_no_response; in_keys.
  - intros field key Hin Hno.
    assert (Hkey : key ∈ usage_keys).
    { apply list_elem_of_In in Hin. apply list_elem_of_In. simpl in *.
      destruct Hin as [ Hin | [ Hin | [ Hin | [] ] ] ]; inversion Hin; tauto. }
    assert (Hresp : key ∈ response_keys).
    { apply list_elem_of_In in Hkey. apply list_elem_of_In. simpl in *. tauto. }
    assert (Hnf : key ∉ function_call_keys).
    { apply list_elem_of_In in Hkey. intros Hin'.
      apply list_elem_of_In in Hin'. simpl in *.
      repeat destruct Hkey as [ <- | Hkey ]; try contradiction;
        repeat destruct Hin' as [ Hin' | Hin' ]; try discriminate; contradiction. }
    assert (Hnt : key ∉ ["llm.response.content"]).
    { apply list_elem_of_In in Hkey. intros Hin'.
      apply list_elem_of_In in Hin'. simpl in *.
      repeat destruct Hkey as [ <- | Hkey ]; try contradiction;
        repeat destruct Hin' as [ Hin' | Hin' ]; try discriminate; contradiction. }
    rewrite record_response_eq.
    destruct (record_function_calls_writes response
                (record_text response sp0).2) as (_ & _ & _ & _ & Hfa).
    destruct (record_text_writes response sp0) as (_ & _ & _ & _ & Hta).
    destruct (record_function_calls response _) as [[ [] | e ] sp2]; cbn [snd] in *.
    + rewrite (record_usage_no_counter response field key) by assumption.
      rewrite Hfa, Hta by assumption. apply started_no_response, Hresp.
    + rewrite Hfa, Hta by assumption. apply started_no_response, Hresp.
Qed.

Lemma absent_fields_leave_no_attributes_witness :
  exists res sp,
    wrapped_generate_content (Sample.returning Sample.bare)
      Sample.gemini_pro [VStr "hello"] ∅ [] = (res, [sp])
    /\ attributes sp !! "llm.response.content" = None
    /\ attributes sp !! "llm.response.function_calls" = None
    /\ attributes sp !! "llm.response.function_call_count" = None
    /\ attributes sp !! "llm.usage.prompt_tokens" = None
    /\ attributes sp !! "llm.usage.completion_tokens" = None
    /\ attributes sp !! "llm.usage.total_tokens" = None.
Proof.
  destruct (absent_fields_leave_no_attributes (Sample.returning Sample.bare)
              Sample.gemini_pro [VStr "hello"] ∅ [] Sample.bare eq_refl)
    as (res & sp & Hcall & Htext & Hcalls & Hcount).
  exists res, sp. split; [ exact Hcall | ].
  split; [ exact (Htext eq_refl) | ].
  destruct (Hcalls eq_refl) as (H1 & H2).
  repeat split; try assumption.
  - apply (Hcount "prompt_token_count"); [ in_keys | reflexivity ].
  - apply (Hcount "candidates_token_count"); [ in_keys | reflexivity ].
  - apply (Hcount "total_token_count"); [ in_keys | reflexivity ].
Defined.

(** ** Truthiness gates *)

(** The tools attributes on the span of a call. *)
Lemma outcome_tools
    (original : pyval -> list pyval -> gmap string pyval -> result pyval)
    (self : pyval) (args : list pyval) (kwargs : gmap string pyval) :
  let sp := (outcome original self args kwargs (started self args kwargs)).2 in
  let tools := tools_of kwargs in
  attributes sp !! "llm.request.tools" =
    (if truthy tools then Some (VStr (tools_text tools)) else None)
  /\ attributes sp !! "llm.request.tool_count" =
    (if truthy tools then
       match tools with
       | VList xs => Some (VInt (Z.of_nat (length xs)))
       | _ => None
       end
     else None).
Proof.
  cbv zeta. rewrite !outcome_request_attributes by in_keys.
  apply request_span_tools; apply lookup_empty.
Qed.

(** A tools argument that is false leaves nothing on the span. *)
Lemma falsy_tools_absent
    (original : pyval -> list pyval -> gmap string pyval -> result pyval)
    (self : pyval) (args : list pyval) (kwargs : gmap string pyval)
    (finished : list span) (tools : pyval) (sp : span) :
  kwargs !! "tools" = Some tools ->
  truthy tools = false ->
  (wrapped_generate_content original self args kwargs finished).2
  = (finished ++ [sp])%list ->
  attributes sp !! "llm.request.tools" = None
  /\ attributes sp !! "llm.request.tool_count" = None.
Proof.
  intros Hk Hfalse Hcall. rewrite wrapped_generate_content_eq in Hcall.
  cbn [snd] in Hcall. apply app_inv_head in Hcall. injection Hcall as <-.
  cbn [attributes end_span]. rewrite ?on_exit_attrs.
  destruct (outcome_tools original self args kwargs) as [Ht Hc].
  unfold tools_of in Ht, Hc. rewrite Hk in Ht, Hc. simpl in Ht, Hc.
  rewrite Hfalse in Ht, Hc. split; assumption.
Qed.

(** C9.  A text that is there but false (the empty string, say) gives no
    [llm.response.content], and a tools argument that is given but false
    (the empty list, say) gives neither [llm.request.tools] nor
    [llm.request.tool_count]. *)
Theorem falsy_values_skipped
    (original : pyval -> list pyval -> gmap string pyval -> result pyval)
    (self : pyval) (args : list pyval) (kwargs : gmap string pyval)
    (finished : list span) :
  exists res sp,
    wrapped_generate_content original self args kwargs finished
    = (res, (finished ++ [sp])%list)
    /\ (forall response text,
          original self args kwargs = Ok response ->
          lookup_attr response "text" = Some text ->
          truthy text = false ->
          attributes sp !! "llm.response.content" = None)
    /\ (forall tools,
          kwargs !! "tools" = Some tools ->
          truthy tools = false ->
          attributes sp !! "llm.request.tools" = None
          /\ attributes sp !! "llm.request.tool_count" = None).
Proof.
  rewrite wrapped_generate_content_eq.
  eexists _, _. split; [ reflexivity | ].
  cbn [attributes end_span]. rewrite ?on_exit_attrs. split.
  - intros response text H Hattr Hfalse.
    rewrite outcome_attributes, H, record_response_content.
    rewrite text_if_set_none
      by (unfold has_truthy_attr; rewrite Hattr; exact Hfalse).
    apply started_no_response. in_keys.
  - intros tools Hk Hfalse.
    destruct (outcome_tools original self args kwargs) as [Ht Hc].
    unfold tools_of in Ht, Hc. rewrite Hk in Ht, Hc. simpl in Ht, Hc.
    rewrite Hfalse in Ht, Hc. split; assumption.
Qed.

Lemma falsy_values_skipped_witness :
  exists res sp,
    wrapped_generate_content (Sample.returning Sample.silent)
      Sample.gemini_pro [VStr "hello"] {["tools" := VList []]} [] = (res, [sp])
    /\ lookup_attr Sample.silent "text" = Some (VStr "")
    /\ attributes sp !! "llm.response.content" = None
    /\ attributes sp !! "llm.request.tools" = None
    /\ attributes sp !! "llm.request.tool_count" = None.
Proof.
  destruct (falsy_values_skipped (Sample.returning Sample.silent)
              Sample.gemini_pro [VStr "hello"] {["tools" := VList []]} [])
    as (res & sp & Hcall & Htext & Htools).
  exists res, sp. split; [ exact Hcall | ]. split; [ reflexivity | ].
  split; [ exact (Htext Sample.silent (VStr "") eq_refl eq_refl eq_refl) | ].
  apply (Htools (VList [])); reflexivity.
Defined.

(** C6, as amended.  When the tools argument is given and true, the span
    has [llm.request.tools]: the JSON text of a list or dict, its plain
    string form when the encoder refuses it, the plain string form of any
    other value; and it has [llm.request.tool_count], the length, exactly
    when the tools value is a list.  None of this raises: a response without
    function calls is still returned to the caller. *)
Theorem tools_recorded_when_truthy
    (original : pyval -> list pyval -> gmap string pyval -> result pyval)
    (self : pyval) (args : list pyval) (kwargs : gmap string pyval)
    (finished : list span) (tools : pyval) :
  kwargs !! "tools" = Some tools ->
  truthy tools = true ->
  exists res sp,
    wrapped_generate_content original self args kwargs finished
    = (res, (finished ++ [sp])%list)
    /\ attributes sp !! "llm.request.tools" =
       Some (VStr (if is_list_or_dict tools then
                     match json_dumps tools with
                     | Ok s => s
                     | Raise _ => str tools
                     end
                   else str tools))
    /\ attributes sp !! "llm.request.tool_count" =
       match tools with
       | VList xs => Some (VInt (Z.of_nat (length xs)))
       | _ => None
       end
    /\ (forall response,
          original self args kwargs = Ok response ->
          no_function_calls response = true ->
          res = Ok response).
Proof.
  intros Hk Htrue. rewrite wrapped_generate_content_eq.
  eexists _, _. split; [ reflexivity | ].
  cbn [attributes end_span]. rewrite ?on_exit_attrs.
  destruct (outcome_tools original self args kwargs) as [Ht Hc].
  unfold tools_of in Ht, Hc. rewrite Hk in Ht, Hc. simpl in Ht, Hc.
  rewrite Htrue in Ht, Hc.
  split; [ exact Ht | ]. split; [ exact Hc | ].
  intros response H Hnone. unfold outcome. rewrite H.
  rewrite record_response_no_function_calls by exact Hnone. reflexivity.
Qed.

Lemma tools_recorded_when_truthy_witness :
  exists sp,
    wrapped_generate_content (Sample.returning Sample.bare)
      Sample.gemini_pro [VStr "hello"]
      {["tools" := VList [Sample.weather_tool]]} []
    = (Ok Sample.bare, [sp])
    /\ attributes sp !! "llm.request.tools" = Some (VStr "[<Tool get_weather>]")
    /\ attributes sp !! "llm.request.tool_count" = Some (VInt 1).
Proof.
  destruct (tools_recorded_when_truthy (Sample.returning Sample.bare)
              Sample.gemini_pro [VStr "hello"]
              {["tools" := VList [Sample.weather_tool]]} []
              (VList [Sample.weather_tool]))
    as (res & sp & Hcall & Ht & Hc & Hres); [ reflexivity | reflexivity | ].
  exists sp. rewrite <- (Hres Sample.bare eq_refl eq_refl).
  split; [ exact Hcall | ]. split; [ exact Ht | exact Hc ].
Defined.

(** C6 as stated fails for a tools argument that is given but empty: the
    call [generate_content("hello", tools=[])] leaves no
    [llm.request.tools] on its span. *)
Lemma empty_tools_not_recorded :
  ({["tools" := VList []]} : gmap string pyval) !! "tools" = Some (VList [])
  /\ ~ tools_recorded (Sample.returning Sample.bare) Sample.gemini_pro
         [VStr "hello"] {["tools" := VList []]} (VList []).
Proof.
  split; [ reflexivity | ].
  intros (sp & Hcall & Ht).
  destruct (falsy_tools_absent (Sample.returning Sample.bare)
              Sample.gemini_pro [VStr "hello"] {["tools" := VList []]} []
              (VList []) sp) as [Hnone _];
    [ reflexivity | reflexivity | exact Hcall | ].
  rewrite Hnone in Ht. discriminate.
Qed.

(** ** Usage counters and the scenario *)

(** C4.  A receiver named ["gemini-pro"], the request content ["hello"],
    and an original that returns a response with text ["hi"], usage
    counters 3, 2 and 5 and no function calls: the call returns the
    response and adds exactly one span, with status OK, the name
    ["gemini.chat.generate_content gemini-pro"] and the six attributes of
    the scenario. *)
Theorem scenario_hello
    (original : pyval -> list pyval -> gmap string pyval -> result pyval)
    (self : pyval) (args : list pyval) (kwargs : gmap string pyval)
    (finished : list span) (response usage : pyval) :
  lookup_attr self "model_name" = Some (VStr "gemini-pro") ->
  contents_of args kwargs = VStr "hello" ->
  original self args kwargs = Ok response ->
  lookup_attr response "text" = Some (VStr "hi") ->
  no_function_calls response = true ->
  lookup_attr response "usage_metadata" = Some usage ->
  truthy usage = true ->
  lookup_attr usage "prompt_token_count" = Some (VInt 3) ->
  lookup_attr usage "candidates_token_count" = Some (VInt 2) ->
  lookup_attr usage "total_token_count" = Some (VInt 5) ->
  exists sp,
    wrapped_generate_content original self args kwargs finished
    = (Ok response, (finished ++ [sp])%list)
    /\ status sp = MkStatus OK None
    /\ name sp = "gemini.chat.generate_content gemini-pro"
    /\ attributes sp !! "llm.request.model" = Some (VStr "gemini-pro")
    /\ attributes sp !! "llm.request.messages" = Some (VStr "hello")
    /\ attributes sp !! "llm.response.content" = Some (VStr "hi")
    /\ attributes sp !! "llm.usage.prompt_tokens" = Some (VInt 3)
    /\ attributes sp !! "llm.usage.completion_tokens" = Some (VInt 2)
    /\ attributes sp !! "llm.usage.total_tokens" = Some (VInt 5).
Proof.
  intros Hmodel Hcontents H Htext Hnone Husage Htruthy Hp Hc Ht.
  rewrite wrapped_generate_content_eq.
  set (sp0 := started self args kwargs).
  assert (Ho : outcome original self args kwargs sp0
               = (Ok response,
                  (set_status (MkStatus OK None)
                     (record_usage response (record_text response sp0).2).2).2)).
  { unfold outcome. rewrite H.
    rewrite record_response_no_function_calls by exact Hnone. reflexivity. }
  rewrite Ho. cbn [fst snd]. eexists. split; [ reflexivity | ].
  cbn [end_span set_status status name attributes snd].
  destruct (record_usage_writes response (record_text response sp0).2)
    as (Hun & _ & _ & _ & Hua).
  destruct (record_text_writes response sp0) as (Htn & _ & _ & _ & Hta).
  destruct (started_events self args kwargs) as (_ & _ & _ & Hname).
  destruct (request_span_attributes
              (getattr self "model_name" (VStr "unknown"))
              (contents_of args kwargs) (tools_of kwargs)
              (new_span ("gemini.chat.generate_content "
                         +:+ str (getattr self "model_name" (VStr "unknown")))))
    as (_ & Hm & Hmsg).
  fold (started self args kwargs) in Hm, Hmsg. fold sp0 in Hm, Hmsg, Hname.
  unfold getattr in Hm, Hname. rewrite Hmodel in Hm, Hname.
  rewrite Hcontents in Hmsg.
  split; [ reflexivity | ].
  split; [ rewrite Hun, Htn; exact Hname | ].
  split; [ rewrite Hua, Hta by in_keys; exact Hm | ].
  split; [ rewrite Hua, Hta by in_keys; exact Hmsg | ].
  split.
  { rewrite Hua by in_keys. rewrite record_text_eq. unfold text_if_set.
    rewrite Htext. apply lookup_insert_eq. }
  repeat split.
  - apply (record_usage_counter response usage (VInt 3) "prompt_token_count");
      [ in_keys | assumption .. ].
  - apply (record_usage_counter response usage (VInt 2) "candidates_token_count");
      [ in_keys | assumption .. ].
  - apply (record_usage_counter response usage (VInt 5) "total_token_count");
      [ in_keys | assumption .. ].
Qed.

Lemma scenario_hello_witness :
  exists sp,
    wrapped_generate_content (Sample.returning Sample.hi)
      Sample.gemini_pro [VStr "hello"] ∅ []
    = (Ok Sample.hi, [sp])
    /\ status sp = MkStatus OK None
    /\ name sp = "gemini.chat.generate_content gemini-pro"
    /\ attributes sp !! "llm.request.model" = Some (VStr "gemini-pro")
    /\ attributes sp !! "llm.request.messages" = Some (VStr "hello")
    /\ attributes sp !! "llm.response.content" = Some (VStr "hi")
    /\ attributes sp !! "llm.usage.prompt_tokens" = Some (VInt 3)
    /\ attributes sp !! "llm.usage.completion_tokens" = Some (VInt 2)
    /\ attributes sp !! "llm.usage.total_tokens" = Some (VInt 5).
Proof.
  exact (scenario_hello (Sample.returning Sample.hi) Sample.gemini_pro
           [VStr "hello"] ∅ [] Sample.hi Sample.usage_3_2_5
           eq_refl eq_refl eq_refl eq_refl eq_refl eq_refl eq_refl
           eq_refl eq_refl eq_refl).
Defined.

(** ** Function calls *)







(** ** The client singleton *)

Section SingletonFacts.

Variable resolve_api_key : option string -> option string.
Variable resolve_api_url : option string -> option string.

Local Abbreviation initialize := (initialize resolve_api_key resolve_api_url).
Local Abbreviation reaches := (reaches resolve_api_key resolve_api_url).

(** [initialize] either fails and leaves the process as it was, or stores
    the instance it returns. *)
Lemma initialize_cases (api_key api_url : option string) (p : process) :
  (exists e, initialize api_key api_url p = (Raise e, p))
  \/ (exists self p',
        initialize api_key api_url p = (Ok self, p')
        /\ _instance p' = Some self).
Proof.
  unfold Client.initialize.
  destruct (validate _) as [ [] | e ].
  - right. eexists _, _. split; reflexivity.
  - left. exists e. reflexivity.
Qed.

(** With both fields resolved to something, [initialize] succeeds. *)
Lemma initialize_valid (api_key api_url : option string) (p : process) :
  missing (resolve_api_key api_key) = false ->
  missing (resolve_api_url api_url) = false ->
  exists self p', initialize api_key api_url p = (Ok self, p').
Proof.
  intros Hk Hu. unfold Client.initialize, validate, Config_init. simpl.
  rewrite Hk, Hu. eexists _, _. reflexivity.
Qed.

(** The class attribute holds the instance of the latest successful
    [initialize]. *)
Lemma reaches_instance (latest : option AgentBay) (p : process) :
  reaches latest p -> _instance p = latest.
Proof.
  induction 1 as [ | latest p k u e p' _ IH Hinit
                   | latest p k u self p' _ IH Hinit
                   | latest p r p' _ IH Hget
                   | latest p self _ IH ].
  - reflexivity.
  - destruct (initialize_cases k u p) as [ (e' & He) | (s & q & He & _) ];
      rewrite He in Hinit; [ | discriminate ].
    injection Hinit as _ <-. exact IH.
  - destruct (initialize_cases k u p) as [ (e' & He) | (s & q & He & Hq) ];
      rewrite He in Hinit; [ discriminate | ].
    injection Hinit as <- <-. exact Hq.
  - unfold get_instance in Hget.
    destruct (_instance p) eqn:Hi; injection Hget as _ <-; congruence.
  - exact IH.
Qed.

(** C7.  In a process where [latest] is the instance returned by the
    latest successful [initialize], and [None] if no [initialize] has
    succeeded (the process may have gone through any number of failed
    [initialize], [get_instance] and [shutdown] calls), [get_instance]
    leaves the process as it is, raises the not-initialized [RuntimeError]
    if there is no such instance, and returns that very instance if there
    is one. *)
Theorem get_instance_latest (latest : option AgentBay) (p : process) :
  reaches latest p ->
  get_instance p =
  (match latest with
   | Some self => Ok self
   | None => Raise not_initialized
   end, p).
Proof.
  intros H. apply reaches_instance in H. unfold get_instance. rewrite H.
  destruct latest; reflexivity.
Qed.

(** C8.  When the key or the URL resolves to missing or empty,
    [initialize] raises a [ConfigurationError] and the process is left as it
    was: no exporter has been built, no provider installed, and the class
    attribute is unchanged, so that [get_instance] still fails if it failed
    before. *)
Theorem initialize_rejects_missing (api_key api_url : option string)
    (p : process) :
  missing (resolve_api_key api_key) = true
  \/ missing (resolve_api_url api_url) = true ->
  exists msg,
    initialize api_key api_url p = (Raise (MkExn ConfigurationError msg), p)
    /\ (_instance p = None ->
        get_instance (initialize api_key api_url p).2
        = (Raise not_initialized, p)).
Proof.
  intros H. unfold Client.initialize, validate, Config_init. simpl.
  destruct (missing (resolve_api_key api_key)) eqn:Hk.
  - eexists. split; [ reflexivity | ].
    intros Hi. unfold get_instance. simpl. rewrite Hi. reflexivity.
  - destruct H as [ H | H ]; [ discriminate | ]. rewrite H.
    eexists. split; [ reflexivity | ].
    intros Hi. unfold get_instance. simpl. rewrite Hi. reflexivity.
Qed.

End SingletonFacts.

(** An [initialize] with key ["k"] and URL ["https://host"], no fallback
    being needed, and [get_instance] after it; before it, [get_instance]
    fails. *)
Lemma get_instance_latest_witness :
  let init := initialize id id (Some "k") (Some "https://host") initial_process in
  get_instance initial_process = (Raise not_initialized, initial_process)
  /\ exists self,
       init.1 = Ok self
       /\ endpoint <$> span_processors (tracer_provider self)
          = ["https://host/api/v1/traces"]
       /\ get_instance init.2 = (Ok self, init.2).
Proof.
  cbv zeta. split.
  - exact (get_instance_latest id id None initial_process
             (reaches_start id id)).
  - eexists. split; [ reflexivity | ]. split; [ reflexivity | ].
    refine (get_instance_latest id id (Some _) _
              (reaches_initialize id id None initial_process
                 (Some "k") (Some "https://host") _ _
                 (reaches_start id id) eq_refl)).
Defined.

Lemma initialize_rejects_missing_witness :
  exists msg,
    initialize id id (Some "k") None initial_process
    = (Raise (MkExn ConfigurationError msg), initial_process)
    /\ get_instance (initialize id id (Some "k") None initial_process).2
       = (Raise not_initialized, initial_process).
Proof.
  destruct (initialize_rejects_missing id id (Some "k") None initial_process
              (or_intror eq_refl)) as (msg & Hinit & Hget).
  exists msg. split; [ exact Hinit | exact (Hget eq_refl) ].
Defined.

(** ** The span of every call *)

(** The [try] statement changes neither the name of the span nor whether
    it is ended; its status and events follow from how the statement
    ends. *)
Lemma outcome_shape
    (original : pyval -> list pyval -> gmap string pyval -> result pyval)
    (self : pyval) (args : list pyval) (kwargs : gmap string pyval)
    (sp0 : span) :
  let o := outcome original self args kwargs sp0 in
  name o.2 = name sp0
  /\ ended o.2 = ended sp0
  /\ match o.1 with
     | Ok _ => status o.2 = MkStatus OK None /\ events o.2 = events sp0
     | Raise e =>
         if isinstance_exn e Exception then
           status o.2 = MkStatus ERROR (Some (exn_str e))
           /\ events o.2 = (events sp0 ++ [e])%list
         else status o.2 = status sp0 /\ events o.2 = events sp0
     end.
Proof.
  cbv zeta. unfold outcome.
  destruct (original self args kwargs) as [ r | e ].
  - destruct (record_response_writes r sp0) as (Hn & Hs & He & Hd & _).
    destruct (record_response r sp0) as [[ [] | e ] sp1]; cbn [fst snd] in *.
    + repeat split; assumption.
    + unfold on_exception. destruct (isinstance_exn e Exception);
        cbn; rewrite ?Hn, ?Hs, ?He, ?Hd; repeat split.
  - cbn [fst snd]. unfold on_exception.
    destruct (isinstance_exn e Exception); cbn; repeat split.
Qed.

(** X1.  Every call, however it ends, adds exactly one span after the
    spans ended before it; that span is ended and is named after the
    receiver's [model_name], or after ["unknown"] when the receiver has
    none. *)
Theorem one_span_per_call
    (original : pyval -> list pyval -> gmap string pyval -> result pyval)
    (self : pyval) (args : list pyval) (kwargs : gmap string pyval)
    (finished : list span) :
  exists res sp,
    wrapped_generate_content original self args kwargs finished
    = (res, (finished ++ [sp])%list)
    /\ ended sp = true
    /\ name sp =
       "gemini.chat.generate_content "
       +:+ match lookup_attr self "model_name" with
           | Some model => str model
           | None => "unknown"
           end.
Proof.
  rewrite wrapped_generate_content_eq.
  eexists _, _. split; [ reflexivity | ]. split; [ reflexivity | ].
  cbn [end_span name]. rewrite on_exit_name.
  destruct (outcome_shape original self args kwargs
              (started self args kwargs)) as (Hn & _).
  rewrite Hn.
  destruct (started_events self args kwargs) as (_ & _ & _ & Hname).
  rewrite Hname. unfold getattr.
  destruct (lookup_attr self "model_name"); reflexivity.
Qed.

(** X2.  The status of the ended span tells how the call ended: OK with
    nothing recorded exactly when the call returns; when it raises an
    instance of [Exception], whether the original raised it or the reading
    of the response did, ERROR with the description
    ["<class name>: <message>"] and the exception recorded twice, once by
    the wrapper and once more when the block is left; no status and nothing
    recorded when it raises anything else. *)
Theorem status_follows_outcome
    (original : pyval -> list pyval -> gmap string pyval -> result pyval)
    (self : pyval) (args : list pyval) (kwargs : gmap string pyval)
    (finished : list span) :
  exists res sp,
    wrapped_generate_content original self args kwargs finished
    = (res, (finished ++ [sp])%list)
    /\ match res with
       | Ok _ => status sp = MkStatus OK None /\ events sp = []
       | Raise e =>
           if isinstance_exn e Exception then
             status sp =
               MkStatus ERROR
                 (Some (exn_name (exn_cls e) +:+ ": " +:+ exn_str e))
             /\ events sp = [e; e]
           else status sp = MkStatus UNSET None /\ events sp = []
       end.
Proof.
  rewrite wrapped_generate_content_eq.
  eexists _, _. split; [ reflexivity | ].
  destruct (outcome_shape original self args kwargs
              (started self args kwargs)) as (_ & _ & H).
  destruct (started_events self args kwargs) as (He & Hs & _).
  rewrite He, Hs in H.
  destruct ((outcome original self args kwargs (started self args kwargs)).1)
    as [ v | e ]; [ exact H | ].
  unfold on_exit. destruct (isinstance_exn e Exception); [ | exact H ].
  destruct H as [Hst Hev]. cbn [end_span status events].
  rewrite Hst, Hev. split; reflexivity.
Qed.

(** X3.  Every span carries the three request attributes, however the call
    ends: the system tag, the model as read off the receiver (["unknown"]
    without a [model_name]), and the string form of the request content,
    which is the first positional argument if there is one, else the
    [contents] keyword, else the empty list. *)
Theorem request_attributes_always
    (original : pyval -> list pyval -> gmap string pyval -> result pyval)
    (self : pyval) (args : list pyval) (kwargs : gmap string pyval)
    (finished : list span) :
  exists res sp,
    wrapped_generate_content original self args kwargs finished
    = (res, (finished ++ [sp])%list)
    /\ attributes sp !! "llm.system" = Some (VStr "gemini")
    /\ attributes sp !! "llm.request.model" =
       Some match lookup_attr self "model_name" with
            | Some model => model
            | None => VStr "unknown"
            end
    /\ attributes sp !! "llm.request.messages" =
       Some (VStr match args with
                  | a :: _ => str a
                  | [] =>
                      match kwargs !! "contents" with
                      | Some c => str c
                      | None => "[]"
                      end
                  end).
Proof.
  rewrite wrapped_generate_content_eq.
  eexists _, _. split; [ reflexivity | ].
  cbn [end_span attributes]. rewrite ?on_exit_attrs.
  rewrite !outcome_request_attributes by in_keys.
  destruct (request_span_attributes
              (getattr self "model_name" (VStr "unknown"))
              (contents_of args kwargs) (tools_of kwargs)
              (new_span ("gemini.chat.generate_content "
                         +:+ str (getattr self "model_name" (VStr "unknown")))))
    as (Hsys & Hm & Hmsg).
  fold (started self args kwargs) in Hsys, Hm, Hmsg.
  split; [ exact Hsys | ]. split.
  - rewrite Hm. unfold getattr.
    destruct (lookup_attr self "model_name"); reflexivity.
  - rewrite Hmsg. unfold contents_of.
    destruct args; [ | reflexivity ].
    destruct (kwargs !! "contents"); reflexivity.
Qed.

(** X4.  Tools are read off the keyword arguments only: a call without a
    [tools] keyword has neither [llm.request.tools] nor
    [llm.request.tool_count] on its span, whatever its positional arguments
    are. *)
Theorem no_tools_keyword_no_tools_attributes
    (original : pyval -> list pyval -> gmap string pyval -> result pyval)
    (self : pyval) (args : list pyval) (kwargs : gmap string pyval)
    (finished : list span) :
  kwargs !! "tools" = None ->
  exists res sp,
    wrapped_generate_content original self args kwargs finished
    = (res, (finished ++ [sp])%list)
    /\ attributes sp !! "llm.request.tools" = None
    /\ attributes sp !! "llm.request.tool_count" = None.
Proof.
  intros Hk. rewrite wrapped_generate_content_eq.
  eexists _, _. split; [ reflexivity | ].
  cbn [end_span attributes]. rewrite ?on_exit_attrs.
  destruct (outcome_tools original self args kwargs) as [Ht Hc].
  unfold tools_of in Ht, Hc. rewrite Hk in Ht, Hc. exact (conj Ht Hc).
Qed.

Lemma no_tools_keyword_no_tools_attributes_witness :
  exists res sp,
    wrapped_generate_content (Sample.returning Sample.hi) Sample.gemini_pro
      [VStr "hello"; VList [Sample.weather_tool]] ∅ [] = (res, [sp])
    /\ attributes sp !! "llm.request.tools" = None
    /\ attributes sp !! "llm.request.tool_count" = None.
Proof.
  apply (no_tools_keyword_no_tools_attributes (Sample.returning Sample.hi)
           Sample.gemini_pro [VStr "hello"; VList [Sample.weather_tool]] ∅ []).
  reflexivity.
Defined.

(** X5.  The wrapper writes under eleven keys and no other: any attribute
    on the span of a call has one of the names of the naming contract. *)
Theorem attribute_names_closed
    (original : pyval -> list pyval -> gmap string pyval -> result pyval)
    (self : pyval) (args : list pyval) (kwargs : gmap string pyval)
    (finished : list span) :
  exists res sp,
    wrapped_generate_content original self args kwargs finished
    = (res, (finished ++ [sp])%list)
    /\ forall k v,
         attributes sp !! k = Some v ->
         k ∈ ["llm.system"; "llm.request.model"; "llm.request.messages";
              "llm.request.tools"; "llm.request.tool_count";
              "llm.response.content"; "llm.response.function_calls";
              "llm.response.function_call_count"; "llm.usage.prompt_tokens";
              "llm.usage.completion_tokens"; "llm.usage.total_tokens"].
Proof.
  rewrite wrapped_generate_content_eq.
  eexists _, _. split; [ reflexivity | ].
  cbn [end_span attributes]. rewrite ?on_exit_attrs. intros k v Hk.
  change (k ∈ (request_keys ++ response_keys)%list).
  apply elem_of_app.
  destruct (decide (k ∈ response_keys)) as [ Hin | Hout ]; [ right; exact Hin | ].
  left. rewrite outcome_request_attributes in Hk by exact Hout.
  destruct (decide (k ∈ request_keys)) as [ Hin | Hout' ]; [ exact Hin | ].
  destruct (started_frame self args kwargs) as (_ & _ & _ & _ & Ha).
  rewrite Ha in Hk by exact Hout'. unfold new_span in Hk.
  cbn [attributes] in Hk. rewrite lookup_empty in Hk. discriminate.
Qed.

(** X6.  When the original raises, whatever it raises, the span has no
    response attribute: no content, no function calls, no usage. *)
Theorem failed_call_has_no_response_attributes
    (original : pyval -> list pyval -> gmap string pyval -> result pyval)
    (self : pyval) (args : list pyval) (kwargs : gmap string pyval)
    (finished : list span) (e : pyexn) :
  original self args kwargs = Raise e ->
  exists sp,
    wrapped_generate_content original self args kwargs finished
    = (Raise e, (finished ++ [sp])%list)
    /\ forall k,
         k ∈ ["llm.response.content"; "llm.response.function_calls";
              "llm.response.function_call_count"; "llm.usage.prompt_tokens";
              "llm.usage.completion_tokens"; "llm.usage.total_tokens"] ->
         attributes sp !! k = None.
Proof.
  intros H. rewrite wrapped_generate_content_eq.
  assert (Ho : outcome original self args kwargs (started self args kwargs)
               = (Raise e, on_exception e (started self args kwargs)))
    by (unfold outcome; rewrite H; reflexivity).
  rewrite Ho. cbn [fst snd]. eexists. split; [ reflexivity | ].
  intros k Hk. cbn [end_span attributes]. rewrite ?on_exit_attrs.
  destruct (on_exception_attributes e (started self args kwargs)) as (Ha & _).
  rewrite Ha. apply started_no_response. exact Hk.
Qed.

Lemma failed_call_has_no_response_attributes_witness :
  exists sp,
    wrapped_generate_content (Sample.raising Sample.interrupted)
      Sample.gemini_pro [VStr "hello"] ∅ []
    = (Raise Sample.interrupted, [sp])
    /\ attributes sp !! "llm.response.content" = None.
Proof.
  destruct (failed_call_has_no_response_attributes
              (Sample.raising Sample.interrupted) Sample.gemini_pro
              [VStr "hello"] ∅ [] Sample.interrupted eq_refl)
    as (sp & Hcall & Hnone).
  exists sp. split; [ exact Hcall | ]. apply Hnone. in_keys.
Defined.

(** ** A response that cannot be read *)

Lemma getitem0_raise (v : pyval) (e : pyexn) :
  getitem0 v = Raise e -> isinstance_exn e Exception = true.
Proof.
  destruct v as [ | b | z | s | xs | kvs | cls r attrs ]; simpl; intros H;
    try (inversion H; reflexivity).
  - destruct s; inversion H; reflexivity.
  - destruct xs; inversion H; reflexivity.
  - destruct (dict_get_zero kvs); inversion H; reflexivity.
Qed.

Lemma iterate_raise (v : pyval) (e : pyexn) :
  iterate v = Raise e -> isinstance_exn e Exception = true.
Proof.
  destruct v; simpl; intros H; inversion H; reflexivity.
Qed.

(** When the candidates block raises before it has written anything, the
    call ends in the [except] clause with the span as the text statement
    left it, and the exception is recorded once more when the block is
    left. *)
Lemma outcome_unreadable
    (original : pyval -> list pyval -> gmap string pyval -> result pyval)
    (self : pyval) (args : list pyval) (kwargs : gmap string pyval)
    (finished : list span) (response : pyval) (e : pyexn) :
  original self args kwargs = Ok response ->
  (forall sp, record_function_calls response sp = (Raise e, sp)) ->
  isinstance_exn e Exception = true ->
  exists sp,
    wrapped_generate_content original self args kwargs finished
    = (Raise e, (finished ++ [sp])%list)
    /\ status sp =
       MkStatus ERROR (Some (exn_name (exn_cls e) +:+ ": " +:+ exn_str e))
    /\ events sp = [e; e]
    /\ attributes sp !! "llm.response.content" =
       match lookup_attr response "text" with
       | Some text => if truthy text then Some (VStr (str text)) else None
       | None => None
       end
    /\ forall k, k ∈ (function_call_keys ++ usage_keys)%list ->
                 attributes sp !! k = None.
Proof.
  intros H Hraise Hexc. rewrite wrapped_generate_content_eq.
  set (sp0 := started self args kwargs).
  assert (Ho : outcome original self args kwargs sp0
               = (Raise e, on_exception e (record_text response sp0).2)).
  { unfold outcome. rewrite H, record_response_eq, Hraise. reflexivity. }
  rewrite Ho. cbn [fst snd]. eexists. split; [ reflexivity | ].
  destruct (record_text_writes response sp0) as (_ & Hs & He & _ & Ha).
  destruct (started_events self args kwargs) as (He0 & _).
  unfold on_exit, on_exception. rewrite Hexc.
  cbn [end_span bind record_exception set_status status events attributes
       status_code snd].
  rewrite He. fold sp0 in He0. rewrite He0.
  split; [ reflexivity | ]. split; [ reflexivity | ]. split.
  - rewrite record_text_eq. cbn [snd]. unfold text_if_set.
    destruct (lookup_attr response "text") as [ t | ];
      [ destruct (truthy t); [ apply lookup_insert_eq | ] | ];
      apply started_no_response; in_keys.
  - intros k Hk. rewrite Ha.
    + apply started_no_response. apply list_elem_of_In in Hk.
      apply list_elem_of_In. simpl in *. tauto.
    + intros Hin. apply list_elem_of_In in Hk, Hin. simpl in Hk, Hin.
      repeat destruct Hk as [ <- | Hk ]; try contradiction;
        repeat destruct Hin as [ Hin | Hin ]; try discriminate; contradiction.
Qed.

(** X7.  A response whose [candidates] is true but has no item [0] (an
    integer, an object, a dict without the key [0]) makes the wrapped call
    raise what the indexing raises, although the original returned: the
    ended span has status ERROR with the description
    ["<class name>: <message>"] and the exception recorded twice, keeps the
    content attribute if the response had a text, and has no function-call
    or usage attribute. *)
Theorem unreadable_candidates_fail_the_call
    (original : pyval -> list pyval -> gmap string pyval -> result pyval)
    (self : pyval) (args : list pyval) (kwargs : gmap string pyval)
    (finished : list span) (response candidates : pyval) (e : pyexn) :
  original self args kwargs = Ok response ->
  lookup_attr response "candidates" = Some candidates ->
  truthy candidates = true ->
  getitem0 candidates = Raise e ->
  exists sp,
    wrapped_generate_content original self args kwargs finished
    = (Raise e, (finished ++ [sp])%list)
    /\ status sp =
       MkStatus ERROR (Some (exn_name (exn_cls e) +:+ ": " +:+ exn_str e))
    /\ events sp = [e; e]
    /\ attributes sp !! "llm.response.content" =
       match lookup_attr response "text" with
       | Some text => if truthy text then Some (VStr (str text)) else None
       | None => None
       end
    /\ forall k, k ∈ (function_call_keys ++ usage_keys)%list ->
                 attributes sp !! k = None.
Proof.
  intros H Hc Ht Hidx.
  apply (outcome_unreadable original self args kwargs finished response e H).
  - intros sp. unfold record_function_calls. rewrite Hc, Ht.
    unfold bind, lift. rewrite Hidx. reflexivity.
  - apply (getitem0_raise candidates), Hidx.
Qed.

Lemma unreadable_candidates_fail_the_call_witness :
  let response :=
    VObj "GenerateContentResponse" "<GenerateContentResponse>"
         [("text", VStr "hi"); ("candidates", VInt 1);
          ("usage_metadata", Sample.usage_3_2_5)] in
  let e := MkExn TypeError "'int' object is not subscriptable" in
  exists sp,
    wrapped_generate_content (Sample.returning response) Sample.gemini_pro
      [VStr "hello"] ∅ [] = (Raise e, [sp])
    /\ status sp =
       MkStatus ERROR (Some "TypeError: 'int' object is not subscriptable")
    /\ attributes sp !! "llm.response.content" = Some (VStr "hi")
    /\ attributes sp !! "llm.usage.total_tokens" = None.
Proof.
  cbv zeta.
  destruct (unreadable_candidates_fail_the_call
              (Sample.returning
                 (VObj "GenerateContentResponse" "<GenerateContentResponse>"
                    [("text", VStr "hi"); ("candidates", VInt 1);
                     ("usage_metadata", Sample.usage_3_2_5)]))
              Sample.gemini_pro [VStr "hello"] ∅ []
              (VObj "GenerateContentResponse" "<GenerateContentResponse>"
                 [("text", VStr "hi"); ("candidates", VInt 1);
                  ("usage_metadata", Sample.usage_3_2_5)])
              (VInt 1) (MkExn TypeError "'int' object is not subscriptable")
              eq_refl eq_refl eq_refl eq_refl)
    as (sp & Hcall & Hs & _ & Hc & Hk).
  exists sp. split; [ exact Hcall | ]. split; [ exact Hs | ].
  split; [ exact Hc | ]. apply Hk. in_keys.
Defined.

(** X8.  A first candidate whose [function_calls] is true but cannot be
    iterated (a single object instead of a list, a number) makes the
    wrapped call raise the [TypeError] of the loop, although the original
    returned; the ended span is as for any failure (status ERROR with
    ["TypeError: <message>"], the exception recorded twice) and has no
    function-call or usage attribute. *)
Theorem uniterable_function_calls_fail_the_call
    (original : pyval -> list pyval -> gmap string pyval -> result pyval)
    (self : pyval) (args : list pyval) (kwargs : gmap string pyval)
    (finished : list span) (response candidate function_calls : pyval)
    (rest : list pyval) (e : pyexn) :
  original self args kwargs = Ok response ->
  lookup_attr response "candidates" = Some (VList (candidate :: rest)) ->
  lookup_attr candidate "function_calls" = Some function_calls ->
  truthy function_calls = true ->
  iterate function_calls = Raise e ->
  exists sp,
    wrapped_generate_content original self args kwargs finished
    = (Raise e, (finished ++ [sp])%list)
    /\ status sp =
       MkStatus ERROR (Some (exn_name (exn_cls e) +:+ ": " +:+ exn_str e))
    /\ events sp = [e; e]
    /\ attributes sp !! "llm.response.content" =
       match lookup_attr response "text" with
       | Some text => if truthy text then Some (VStr (str text)) else None
       | None => None
       end
    /\ forall k, k ∈ (function_call_keys ++ usage_keys)%list ->
                 attributes sp !! k = None.
Proof.
  intros H Hc Hf Ht Hit.
  apply (outcome_unreadable original self args kwargs finished response e H).
  - intros sp.
    rewrite (record_function_calls_first response candidate rest) by exact Hc.
    rewrite record_candidate_eq, Hf, Ht, Hit. reflexivity.
  - apply (iterate_raise function_calls), Hit.
Qed.

Lemma uniterable_function_calls_fail_the_call_witness :
  let response :=
    VObj "GenerateContentResponse" "<GenerateContentResponse>"
         [("candidates",
           VList [VObj "Candidate" "<Candidate>"
                       [("function_calls", Sample.call_weather)]])] in
  let e := MkExn TypeError "'FunctionCall' object is not iterable" in
  exists sp,
    wrapped_generate_content (Sample.returning response) Sample.gemini_pro
      [VStr "hello"] ∅ [] = (Raise e, [sp])
    /\ events sp = [e; e]
    /\ attributes sp !! "llm.response.function_calls" = None.
Proof.
  cbv zeta.
  destruct (uniterable_function_calls_fail_the_call
              (Sample.returning
                 (VObj "GenerateContentResponse" "<GenerateContentResponse>"
                    [("candidates",
                      VList [VObj "Candidate" "<Candidate>"
                                  [("function_calls", Sample.call_weather)]])]))
              Sample.gemini_pro [VStr "hello"] ∅ []
              (VObj "GenerateContentResponse" "<GenerateContentResponse>"
                 [("candidates",
                   VList [VObj "Candidate" "<Candidate>"
                               [("function_calls", Sample.call_weather)]])])
              (VObj "Candidate" "<Candidate>"
                 [("function_calls", Sample.call_weather)])
              Sample.call_weather []
              (MkExn TypeError "'FunctionCall' object is not iterable")
              eq_refl eq_refl eq_refl eq_refl eq_refl)
    as (sp & Hcall & _ & He & _ & Hk).
  exists sp. split; [ exact Hcall | ]. split; [ exact He | ].
  apply Hk. in_keys.
Defined.

(** ** Usage counters *)

Lemma record_function_calls_list_shaped (response : pyval) (sp : span) :
  list_shaped response = true ->
  (record_function_calls response sp).1 = Ok tt.
Proof.
  intros Hs. unfold list_shaped in Hs. unfold record_function_calls.
  destruct (lookup_attr response "candidates") as [ cs | ]; [ | reflexivity ].
  destruct cs as [ | b | z | s | [ | c rest ] | kvs | cls r attrs ];
    try reflexivity;
    try (apply negb_true_iff in Hs; rewrite Hs; reflexivity);
    try discriminate.
  cbn [truthy getitem0]. unfold bind, lift. rewrite record_candidate_eq.
  destruct (lookup_attr c "function_calls") as [ fcs | ]; [ | reflexivity ].
  destruct fcs as [ | b | z | s | fs | kvs | cls r attrs ];
    try reflexivity;
    try (apply negb_true_iff in Hs; rewrite Hs; reflexivity);
    try discriminate.
  destruct fs; reflexivity.
Qed.

(** X9.  A usage counter is recorded as it is, with no test of its value:
    when the response has a text that can be read and is read to its end,
    and its [usage_metadata] is true, every counter it has goes on the span
    unchanged, be it [0] or [None], and a counter it lacks leaves no
    attribute. *)
Theorem usage_counters_recorded_as_given
    (original : pyval -> list pyval -> gmap string pyval -> result pyval)
    (self : pyval) (args : list pyval) (kwargs : gmap string pyval)
    (finished : list span) (response text usage : pyval) :
  original self args kwargs = Ok response ->
  lookup_attr response "text" = Some text ->
  list_shaped response = true ->
  lookup_attr response "usage_metadata" = Some usage ->
  truthy usage = true ->
  exists sp,
    wrapped_generate_content original self args kwargs finished
    = (Ok response, (finished ++ [sp])%list)
    /\ attributes sp !! "llm.usage.prompt_tokens"
       = lookup_attr usage "prompt_token_count"
    /\ attributes sp !! "llm.usage.completion_tokens"
       = lookup_attr usage "candidates_token_count"
    /\ attributes sp !! "llm.usage.total_tokens"
       = lookup_attr usage "total_token_count".
Proof.
  intros H _ Hs Hu Ht. rewrite wrapped_generate_content_eq.
  set (sp0 := started self args kwargs).
  pose proof (record_function_calls_list_shaped response
                (record_text response sp0).2 Hs) as Hf.
  destruct (record_function_calls response (record_text response sp0).2)
    as [rf sp2] eqn:Hrf. cbn [fst] in Hf. subst rf.
  assert (Hr : record_response response sp0
               = (Ok tt, (record_usage response sp2).2))
    by (rewrite record_response_eq, Hrf; reflexivity).
  assert (Ho : outcome original self args kwargs sp0
               = (Ok response,
                  (set_status (MkStatus OK None)
                     (record_usage response sp2).2).2))
    by (unfold outcome; rewrite H, Hr; reflexivity).
  rewrite Ho. cbn [fst snd]. eexists. split; [ reflexivity | ].
  cbn [end_span set_status attributes snd].
  assert (Hkey : forall field key,
            (field, key) ∈ counters ->
            attributes (record_usage response sp2).2 !! key
            = lookup_attr usage field).
  { intros field key Hin.
    destruct (lookup_attr usage field) as [ n | ] eqn:Hn.
    - apply (record_usage_counter response usage n field key); assumption.
    - rewrite (record_usage_no_counter response field key) by
        (try exact Hin; unfold no_counter, hasattr; rewrite Hu, Ht, Hn;
         reflexivity).
      assert (Hk : key ∈ usage_keys).
      { apply list_elem_of_In in Hin. apply list_elem_of_In. simpl in *.
        destruct Hin as [ Hin | [ Hin | [ Hin | [] ] ] ]; inversion Hin; tauto. }
      pose proof (record_function_calls_writes response
                    (record_text response sp0).2) as Hw.
      rewrite Hrf in Hw. destruct Hw as (_ & _ & _ & _ & Hfa).
      destruct (record_text_writes response sp0) as (_ & _ & _ & _ & Hta).
      rewrite Hfa, Hta.
      + apply started_no_response. apply list_elem_of_In in Hk.
        apply list_elem_of_In. simpl in *. tauto.
      + intros Hin'. apply list_elem_of_In in Hk, Hin'. simpl in Hk, Hin'.
        repeat destruct Hk as [ <- | Hk ]; try contradiction;
          repeat destruct Hin' as [ Hin' | Hin' ]; try discriminate;
          contradiction.
      + intros Hin'. apply list_elem_of_In in Hk, Hin'. simpl in Hk, Hin'.
        repeat destruct Hk as [ <- | Hk ]; try contradiction;
          repeat destruct Hin' as [ Hin' | Hin' ]; try discriminate;
          contradiction. }
  repeat split; apply Hkey; in_keys.
Qed.

Lemma usage_counters_recorded_as_given_witness :
  let usage :=
    VObj "UsageMetadata" "<UsageMetadata>"
         [("prompt_token_count", VInt 0); ("total_token_count", VNone)] in
  let response :=
    VObj "GenerateContentResponse" "<GenerateContentResponse>"
         [("text", VStr "hi"); ("usage_metadata", usage)] in
  exists sp,
    wrapped_generate_content (Sample.returning response) Sample.gemini_pro
      [VStr "hello"] ∅ [] = (Ok response, [sp])
    /\ attributes sp !! "llm.usage.prompt_tokens" = Some (VInt 0)
    /\ attributes sp !! "llm.usage.completion_tokens" = None
    /\ attributes sp !! "llm.usage.total_tokens" = Some VNone.
Proof.
  cbv zeta.
  exact (usage_counters_recorded_as_given
           (Sample.returning
              (VObj "GenerateContentResponse" "<GenerateContentResponse>"
                 [("text", VStr "hi");
                  ("usage_metadata",
                   VObj "UsageMetadata" "<UsageMetadata>"
                        [("prompt_token_count", VInt 0);
                         ("total_token_count", VNone)])]))
           Sample.gemini_pro [VStr "hello"] ∅ []
           (VObj "GenerateContentResponse" "<GenerateContentResponse>"
              [("text", VStr "hi");
               ("usage_metadata",
                VObj "UsageMetadata" "<UsageMetadata>"
                     [("prompt_token_count", VInt 0);
                      ("total_token_count", VNone)])])
           (VStr "hi")
           (VObj "UsageMetadata" "<UsageMetadata>"
              [("prompt_token_count", VInt 0); ("total_token_count", VNone)])
           eq_refl eq_refl eq_refl eq_refl eq_refl).
Defined.

(** ** Installing the wrapper *)

Lemma issubclass_ImportError_Exception (c : exn_class) :
  issubclass c ImportError = true -> issubclass c Exception = true.
Proof.
  induction c as [ | | | | | | | | | | | | n b IH ]; simpl; try discriminate;
    try reflexivity.
  intros H. apply IH, H.
Qed.

(** What the [try] statement returns or raises is what it gets again when
    it is run on that outcome. *)
Lemma outcome_again
    (original : pyval -> list pyval -> gmap string pyval -> result pyval)
    (self : pyval) (args : list pyval) (kwargs : gmap string pyval)
    (sp0 : span) :
  (outcome (fun _ _ _ => (outcome original self args kwargs sp0).1)
           self args kwargs sp0).1
  = (outcome original self args kwargs sp0).1.
Proof.
  unfold outcome at 2 3.
  destruct (original self args kwargs) as [ r | e ].
  - destruct (record_response r sp0) as [[ [] | e ] sp1] eqn:Hr; cbn [fst].
    + unfold outcome. rewrite Hr. reflexivity.
    + reflexivity.
  - reflexivity.
Qed.

(** The span of a call, from what the [try] statement did. *)
Lemma span_of_outcome
    (original original' :
       pyval -> list pyval -> gmap string pyval -> result pyval)
    (self : pyval) (args : list pyval) (kwargs : gmap string pyval)
    (sp0 : span) :
  (outcome original' self args kwargs sp0).1
  = (outcome original self args kwargs sp0).1 ->
  name (outcome original' self args kwargs sp0).2
  = name (outcome original self args kwargs sp0).2
  /\ status (outcome original' self args kwargs sp0).2
     = status (outcome original self args kwargs sp0).2
  /\ events (outcome original' self args kwargs sp0).2
     = events (outcome original self args kwargs sp0).2.
Proof.
  intros Hsame.
  destruct (outcome_shape original self args kwargs sp0) as (Hn & _ & H).
  destruct (outcome_shape original' self args kwargs sp0) as (Hn' & _ & H').
  rewrite Hsame in H'. split; [ congruence | ].
  destruct ((outcome original self args kwargs sp0).1) as [ v | e ].
  - destruct H as [Hs He], H' as [Hs' He']. split; congruence.
  - destruct (isinstance_exn e Exception);
      destruct H as [Hs He], H' as [Hs' He']; split; congruence.
Qed.

(** Over a method that does not touch the tracer, the installed closure
    is the wrapper: same result, same spans. *)
Lemma wrapped_method_untraced
    (original : pyval -> list pyval -> gmap string pyval -> result pyval)
    (self : pyval) (args : list pyval) (kwargs : gmap string pyval)
    (finished : list span) :
  wrapped_method (untraced original) self args kwargs finished
  = wrapped_generate_content original self args kwargs finished.
Proof.
  unfold wrapped_method, untraced.
  rewrite !wrapped_generate_content_eq. unfold outcome. reflexivity.
Qed.

(** X10.  Wrapping twice doubles the spans and nothing else: a call of the
    twice-wrapped method returns or raises what the once-wrapped method
    does, and adds two spans where that one adds one, the inner span first,
    both with the same name, status and recorded exceptions. *)
Theorem wrapping_twice_doubles_spans
    (m : method) (self : pyval) (args : list pyval)
    (kwargs : gmap string pyval) (finished : list span) :
  exists sp1 sp2,
    wrapped_method m self args kwargs finished
    = ((wrapped_method m self args kwargs finished).1,
       ((m self args kwargs finished).2 ++ [sp1])%list)
    /\ wrapped_method (wrapped_method m) self args kwargs finished
       = ((wrapped_method m self args kwargs finished).1,
          ((m self args kwargs finished).2 ++ [sp1; sp2])%list)
    /\ name sp2 = name sp1
    /\ status sp2 = status sp1
    /\ events sp2 = events sp1.
Proof.
  unfold wrapped_method.
  destruct (m self args kwargs finished) as [r f1]. cbn [snd].
  rewrite wrapped_generate_content_eq. cbn [fst].
  set (sp0 := started self args kwargs).
  set (o := outcome (fun _ _ _ => r) self args kwargs sp0).
  rewrite wrapped_generate_content_eq. fold sp0.
  set (o' := outcome (fun _ _ _ => o.1) self args kwargs sp0).
  assert (Hsame : o'.1 = o.1) by apply outcome_again.
  exists (end_span (on_exit o.1 o.2)), (end_span (on_exit o'.1 o'.2)).
  split; [ reflexivity | ]. split.
  - rewrite Hsame, <- app_assoc. reflexivity.
  - cbn [end_span name status events].
    destruct (span_of_outcome (fun _ _ _ => r) (fun _ _ _ => o.1)
                self args kwargs sp0 Hsame) as (Hn & Hs & He).
    fold o o' in Hn, Hs, He. clearbody o o'.
    destruct o as [r1 s1], o' as [r2 s2]. cbn [fst snd] in *. subst r2.
    unfold on_exit. destruct r1 as [ v | e ]; [ auto | ].
    destruct (isinstance_exn e Exception); cbn [name status events];
      rewrite ?Hn, ?Hs, ?He; auto.
Qed.

(** X11.  A gRPC instrumentation that fails with any instance of
    [Exception] does not keep the wrapper from being installed: if the
    class can be imported, [instrument_chat] returns and the class then
    holds the closure around the method it held before. *)
Theorem grpc_failure_does_not_block_patch
    (gemini_module : pyval) (rt : runtime) (m : method) :
  GenerativeModel rt = Ok m ->
  (forall e, grpc_instrumentor rt = Raise e ->
             isinstance_exn e Exception = true) ->
  exists rt',
    instrument_chat gemini_module rt = (Ok tt, rt')
    /\ GenerativeModel rt' = Ok (wrapped_method m)
    /\ grpc_instrumented rt' =
       match grpc_instrumentor rt with
       | Ok _ => S (grpc_instrumented rt)
       | Raise _ => grpc_instrumented rt
       end.
Proof.
  intros Hm Hg. unfold instrument_chat, instrument_grpc.
  destruct (grpc_instrumentor rt) as [ [] | e ] eqn:Hgrpc.
  - cbn [GenerativeModel]. rewrite Hm. eexists. repeat split.
  - rewrite (Hg e eq_refl), Hm. eexists. repeat split.
Qed.

Lemma grpc_failure_does_not_block_patch_witness :
  let rt :=
    MkRuntime (Raise (MkExn (UserClass "ModuleNotFoundError" ImportError)
                            "No module named 'opentelemetry.instrumentation.grpc'"))
              (Ok tt) (Ok (untraced (Sample.returning Sample.hi))) 0 in
  exists rt',
    instrument_chat genai rt = (Ok tt, rt')
    /\ GenerativeModel rt'
       = Ok (wrapped_method (untraced (Sample.returning Sample.hi)))
    /\ grpc_instrumented rt' = 0%nat.
Proof.
  cbv zeta.
  refine (grpc_failure_does_not_block_patch genai
            (MkRuntime _ (Ok tt) (Ok (untraced (Sample.returning Sample.hi))) 0)
            (untraced (Sample.returning Sample.hi)) eq_refl _).
  intros e He. injection He as <-. reflexivity.
Defined.

(** X12.  When [GenerativeModel] cannot be imported ([ImportError] or a
    subclass), [instrument_chat] returns without raising and installs
    nothing; a gRPC instrumentation that succeeded stays in place. *)
Theorem missing_class_installs_nothing
    (gemini_module : pyval) (rt : runtime) (e : pyexn) :
  GenerativeModel rt = Raise e ->
  isinstance_exn e ImportError = true ->
  (forall e', grpc_instrumentor rt = Raise e' ->
              isinstance_exn e' Exception = true) ->
  exists rt',
    instrument_chat gemini_module rt = (Ok tt, rt')
    /\ GenerativeModel rt' = Raise e
    /\ grpc_instrumented rt' =
       match grpc_instrumentor rt with
       | Ok _ => S (grpc_instrumented rt)
       | Raise _ => grpc_instrumented rt
       end.
Proof.
  intros Hm He Hg. unfold instrument_chat, instrument_grpc.
  destruct (grpc_instrumentor rt) as [ [] | e' ] eqn:Hgrpc.
  - cbn [GenerativeModel]. rewrite Hm, He. eexists. repeat split.
  - rewrite (Hg e' eq_refl), Hm, He. eexists. repeat split; exact Hm.
Qed.

Lemma missing_class_installs_nothing_witness :
  let e := MkExn ImportError "cannot import name 'GenerativeModel'" in
  exists rt',
    instrument_chat genai (MkRuntime (Ok tt) (Ok tt) (Raise e) 0) = (Ok tt, rt')
    /\ GenerativeModel rt' = Raise e
    /\ grpc_instrumented rt' = 1%nat.
Proof.
  cbv zeta.
  refine (missing_class_installs_nothing genai
            (MkRuntime (Ok tt) (Ok tt)
               (Raise (MkExn ImportError "cannot import name 'GenerativeModel'"))
               0)
            (MkExn ImportError "cannot import name 'GenerativeModel'")
            eq_refl eq_refl _).
  intros e' He'. discriminate He'.
Defined.

(** An exception that leaves [instrument_chat] is no [ImportError]. *)
Lemma instrument_chat_raise (gemini_module : pyval) (rt rt' : runtime)
    (e : pyexn) :
  instrument_chat gemini_module rt = (Raise e, rt') ->
  isinstance_exn e ImportError = false.
Proof.
  unfold instrument_chat, instrument_grpc.
  destruct (grpc_instrumentor rt) as [ [] | eg ].
  - cbn [GenerativeModel].
    destruct (GenerativeModel rt) as [ m | em ]; [ discriminate | ].
    destruct (isinstance_exn em ImportError) eqn:Him; [ discriminate | ].
    intros H. injection H as <- _. exact Him.
  - destruct (isinstance_exn eg Exception) eqn:Hex.
    + destruct (GenerativeModel rt) as [ m | em ]; [ discriminate | ].
      destruct (isinstance_exn em ImportError) eqn:Him; [ discriminate | ].
      intros H. injection H as <- _. exact Him.
    + intros H. injection H as <- _.
      destruct (isinstance_exn eg ImportError) eqn:Him; [ | reflexivity ].
      apply issubclass_ImportError_Exception in Him.
      unfold isinstance_exn in Hex. congruence.
Qed.

(** X13.  [instrument] never lets an [ImportError] out, and without the
    Gemini SDK ([import google.generativeai] raising [ImportError]) it does
    nothing at all: it returns, the class is not touched and the gRPC client
    is not instrumented. *)
Theorem instrument_is_best_effort (rt : runtime) :
  (forall e rt', instrument rt = (Raise e, rt') ->
                 isinstance_exn e ImportError = false)
  /\ (forall e, google_generativeai rt = Raise e ->
                isinstance_exn e ImportError = true ->
                instrument rt = (Ok tt, rt)).
Proof.
  split.
  - intros e rt'. unfold instrument.
    destruct (google_generativeai rt) as [ [] | eg ].
    + destruct (instrument_chat genai rt) as [[ [] | ec ] rt1] eqn:Hc;
        [ discriminate | ].
      rewrite (instrument_chat_raise genai rt rt1 ec Hc).
      intros H. injection H as <- _.
      exact (instrument_chat_raise genai rt rt1 ec Hc).
    + destruct (isinstance_exn eg ImportError) eqn:Him; [ discriminate | ].
      intros H. injection H as <- _. exact Him.
  - intros e Hg He. unfold instrument. rewrite Hg, He. reflexivity.
Qed.

Lemma instrument_is_best_effort_witness :
  let e :=
    MkExn (UserClass "ModuleNotFoundError" ImportError)
          "No module named 'google'" in
  let rt := MkRuntime (Ok tt) (Raise e) (Raise e) 0 in
  instrument rt = (Ok tt, rt).
Proof.
  cbv zeta.
  exact (proj2 (instrument_is_best_effort
                  (MkRuntime (Ok tt)
                     (Raise (MkExn (UserClass "ModuleNotFoundError" ImportError)
                                   "No module named 'google'"))
                     (Raise (MkExn (UserClass "ModuleNotFoundError" ImportError)
                                   "No module named 'google'"))
                     0))
               (MkExn (UserClass "ModuleNotFoundError" ImportError)
                      "No module named 'google'")
               eq_refl eq_refl).
Defined.

(** X14.  Nothing guards against instrumenting twice: with the SDK and the
    gRPC instrumentor in place, a second [instrument] wraps the wrapper, so
    that the class holds the closure around the closure around the first
    method, and the gRPC instrumentor has been run twice. *)
Theorem instrument_twice_wraps_twice (rt : runtime) (m : method) :
  grpc_instrumentor rt = Ok tt ->
  google_generativeai rt = Ok tt ->
  GenerativeModel rt = Ok m ->
  exists rt1 rt2,
    instrument rt = (Ok tt, rt1)
    /\ GenerativeModel rt1 = Ok (wrapped_method m)
    /\ instrument rt1 = (Ok tt, rt2)
    /\ GenerativeModel rt2 = Ok (wrapped_method (wrapped_method m))
    /\ grpc_instrumented rt2 = S (S (grpc_instrumented rt)).
Proof.
  intros Hg Hi Hm. unfold instrument, instrument_chat, instrument_grpc.
  rewrite Hg, Hi. cbn [GenerativeModel]. rewrite Hm.
  eexists _, _. split; [ reflexivity | ].
  cbn [grpc_instrumentor google_generativeai GenerativeModel grpc_instrumented].
  repeat split.
Qed.

Lemma instrument_twice_wraps_twice_witness :
  let m := untraced (Sample.returning Sample.hi) in
  exists rt1 rt2,
    instrument (MkRuntime (Ok tt) (Ok tt) (Ok m) 0) = (Ok tt, rt1)
    /\ GenerativeModel rt1 = Ok (wrapped_method m)
    /\ instrument rt1 = (Ok tt, rt2)
    /\ GenerativeModel rt2 = Ok (wrapped_method (wrapped_method m))
    /\ grpc_instrumented rt2 = 2%nat.
Proof.
  cbv zeta.
  exact (instrument_twice_wraps_twice
           (MkRuntime (Ok tt) (Ok tt)
                      (Ok (untraced (Sample.returning Sample.hi))) 0)
           (untraced (Sample.returning Sample.hi)) eq_refl eq_refl eq_refl).
Defined.

(** ** The client over sequences of calls *)

Section LifecycleFacts.

Variable resolve_api_key : option string -> option string.
Variable resolve_api_url : option string -> option string.

Local Abbreviation initialize := (initialize resolve_api_key resolve_api_url).
Local Abbreviation run := (run resolve_api_key resolve_api_url).
Local Abbreviation run_call := (run_call resolve_api_key resolve_api_url).

(** What the pipeline counters of a process agree on. *)
Local Abbreviation consistent p :=
  (length (exporters p) = created p
   /\ length (global_providers p) = created p
   /\ match _instance p with
      | Some self => ident self < created p
      | None => True
      end)%nat.

(** A successful [initialize], spelled out. *)
Lemma initialize_ok (api_key api_url : option string) (p p' : process)
    (self : AgentBay) :
  initialize api_key api_url p = (Ok self, p') ->
  exists key url,
    resolve_api_key api_key = Some key /\ key <> ""
    /\ resolve_api_url api_url = Some url /\ url <> ""
    /\ self = MkAgentBay (created p) (MkConfig (Some key) (Some url))
                (MkProvider [("service.name", "agentbay-python-sdk")]
                   [MkExporter (url +:+ "/api/v1/traces")
                               [("Authorization", "Bearer " +:+ key)]])
    /\ p' = MkProcess (Some self)
              (exporters p ++ span_processors (tracer_provider self))%list
              (global_providers p ++ [tracer_provider self])%list
              (shut_down p) (S (created p)).
Proof.
  unfold Client.initialize, validate, Config_init, missing. cbn [Client.api_key Client.api_url].
  destruct (resolve_api_key api_key) as [ key | ]; [ | discriminate ].
  destruct (String.eqb key "") eqn:Hk; [ discriminate | ].
  destruct (resolve_api_url api_url) as [ url | ]; [ | discriminate ].
  destruct (String.eqb url "") eqn:Hu; [ discriminate | ].
  intros H. injection H as <- <-.
  exists key, url. apply String.eqb_neq in Hk, Hu. repeat split; assumption.
Qed.

Lemma run_call_consistent (p : process) (c : call) :
  consistent p -> consistent (run_call p c) /\ (created p <= created (run_call p c))%nat.
Proof.
  intros (He & Hg & Hi). destruct c as [ k u | | self ]; cbn [Lifecycle.run_call].
  - destruct (initialize_cases resolve_api_key resolve_api_url k u p)
      as [ (e & Hr) | (self & p' & Hr & _) ]; rewrite Hr; cbn [snd].
    + repeat split; try assumption. lia.
    + destruct (initialize_ok k u p p' self Hr)
        as (key & url & _ & _ & _ & _ & -> & ->).
      cbn. rewrite !length_app. cbn.
      split; [ split; [ lia | split; lia ] | lia ].
  - unfold get_instance. destruct (_instance p) eqn:Hinst; cbn [snd];
      rewrite ?Hinst; repeat split; try assumption; lia.
  - cbn. repeat split; try assumption. lia.
Qed.

Lemma run_consistent (calls : list call) (p : process) :
  consistent p -> consistent (run calls p) /\ (created p <= created (run calls p))%nat.
Proof.
  revert p. induction calls as [ | c calls IH ]; intros p Hp.
  - split; [ exact Hp | reflexivity ].
  - cbn. destruct (run_call_consistent p c Hp) as [Hc Hle].
    destruct (IH _ Hc) as [Hc' Hle']. split; [ exact Hc' | ].
    unfold Lifecycle.run in Hle'. lia.
Qed.

(** X15.  After any sequence of [initialize], [get_instance] and
    [shutdown] calls, as many exporters have been built and as many
    providers handed to [trace.set_tracer_provider] as [AgentBay] objects
    have been created, one of each for every successful [initialize]; and
    the singleton is one of these objects. *)
Theorem one_pipeline_per_initialize (calls : list call) :
  let p := run calls initial_process in
  (length (exporters p) = created p
   /\ length (global_providers p) = created p
   /\ match _instance p with
      | Some self => ident self < created p
      | None => True
      end)%nat.
Proof.
  cbv zeta. apply run_consistent. cbn. repeat split.
Qed.

(** X16.  Calling [initialize] again replaces the singleton instead of
    reusing it: in a process where [get_instance] returns [old], a second
    successful [initialize] returns a different object, builds one more
    exporter beside the ones already there, shuts nothing down, and from
    then on [get_instance] returns the new object. *)
Theorem initialize_again_replaces_singleton (calls : list call)
    (api_key api_url : option string) (old new : AgentBay) (p' : process) :
  let p := run calls initial_process in
  get_instance p = (Ok old, p) ->
  initialize api_key api_url p = (Ok new, p') ->
  ident new <> ident old
  /\ get_instance p' = (Ok new, p')
  /\ exporters p' = (exporters p ++ span_processors (tracer_provider new))%list
  /\ length (span_processors (tracer_provider new)) = 1%nat
  /\ shut_down p' = shut_down p.
Proof.
  cbv zeta. intros Hget Hinit.
  destruct (run_consistent calls initial_process) as ((_ & _ & Hi) & _);
    [ cbn; repeat split | ].
  unfold get_instance in Hget.
  destruct (_instance (run calls initial_process)) as [ self | ] eqn:Hinst;
    [ | discriminate ].
  injection Hget as ->.
  destruct (initialize_ok api_key api_url _ p' new Hinit)
    as (key & url & _ & _ & _ & _ & Hnew & Hp').
  assert (Hid : ident new = created (run calls initial_process))
    by (rewrite Hnew; reflexivity).
  split; [ lia | ]. rewrite Hp'. cbn. rewrite Hnew. cbn. repeat split.
Qed.

(** X17.  The instance [initialize] returns carries one exporter, which
    posts to the resolved URL followed by [/api/v1/traces] (nothing is
    trimmed or joined: a URL ending in a slash gives two) with the resolved
    key as bearer token, under the service name of the SDK; both resolved
    values are then non-empty, and the exporter is the one built last. *)
Theorem exporter_of_initialize (api_key api_url : option string)
    (p p' : process) (self : AgentBay) :
  initialize api_key api_url p = (Ok self, p') ->
  exists key url,
    resolve_api_key api_key = Some key /\ key <> ""
    /\ resolve_api_url api_url = Some url /\ url <> ""
    /\ span_processors (tracer_provider self)
       = [MkExporter (url +:+ "/api/v1/traces")
                     [("Authorization", "Bearer " +:+ key)]]
    /\ resource (tracer_provider self)
       = [("service.name", "agentbay-python-sdk")]
    /\ exporters p'
       = (exporters p ++ span_processors (tracer_provider self))%list.
Proof.
  intros H.
  destruct (initialize_ok api_key api_url p p' self H)
    as (key & url & Hk & Hkne & Hu & Hune & Hself & Hp').
  exists key, url. rewrite Hp', Hself. cbn.
  repeat split; assumption.
Qed.

(** X18.  Neither [get_instance] nor [shutdown] changes the singleton or
    the pipeline: after any number of them [get_instance] returns what it
    returned before, also the instance that has been shut down, and every
    [shutdown] is carried out again, with no memory of the earlier ones. *)
Theorem shutdown_keeps_singleton (calls : list call) (p : process) :
  forallb (fun c => negb (is_initialize c)) calls = true ->
  (get_instance (run calls p)).1 = (get_instance p).1
  /\ exporters (run calls p) = exporters p
  /\ shut_down (run calls p) = (shut_down p ++ shutdowns calls)%list.
Proof.
  revert p. induction calls as [ | c calls IH ]; intros p Hall.
  - cbn. rewrite app_nil_r. repeat split.
  - cbn in Hall. apply andb_true_iff in Hall as [Hc Hall].
    destruct c as [ k u | | self ]; [ discriminate | | ]; cbn.
    + assert (Hp : (get_instance p).2 = p)
        by (unfold get_instance; destruct (_instance p); reflexivity).
      rewrite Hp. exact (IH p Hall).
    + destruct (IH (shutdown self p) Hall) as (Hg & He & Hs).
      unfold Lifecycle.run in *. rewrite Hg, He, Hs. cbn.
      rewrite <- app_assoc. repeat split.
      unfold get_instance, shutdown. cbn. destruct (_instance p); reflexivity.
Qed.

End LifecycleFacts.

Lemma initialize_again_replaces_singleton_witness :
  let calls := [Initialize (Some "k") (Some "https://host")] in
  let p := run id id calls initial_process in
  exists old new p',
    get_instance p = (Ok old, p)
    /\ initialize id id (Some "k2") (Some "https://other") p = (Ok new, p')
    /\ ident new <> ident old
    /\ get_instance p' = (Ok new, p')
    /\ endpoint <$> exporters p'
       = ["https://host/api/v1/traces"; "https://other/api/v1/traces"].
Proof.
  cbv zeta. eexists _, _, _.
  split; [ reflexivity | ]. split; [ reflexivity | ].
  destruct (initialize_again_replaces_singleton id id
              [Initialize (Some "k") (Some "https://host")]
              (Some "k2") (Some "https://other") _ _ _ eq_refl eq_refl)
    as (Hne & Hget & _).
  split; [ exact Hne | ]. split; [ exact Hget | reflexivity ].
Defined.

Lemma exporter_of_initialize_witness :
  exists self p',
    initialize id id (Some "k") (Some "https://host/") initial_process
    = (Ok self, p')
    /\ span_processors (tracer_provider self)
       = [MkExporter "https://host//api/v1/traces"
                     [("Authorization", "Bearer k")]].
Proof.
  eexists _, _. split; [ reflexivity | ].
  destruct (exporter_of_initialize id id (Some "k") (Some "https://host/")
              initial_process _ _ eq_refl)
    as (key & url & Hk & _ & Hu & _ & Hsp & _).
  injection Hk as <-. injection Hu as <-. exact Hsp.
Defined.

Lemma shutdown_keeps_singleton_witness :
  let init := initialize id id (Some "k") (Some "https://host") initial_process in
  let calls := [Shutdown Sample.client; GetInstance; Shutdown Sample.client] in
  init.1 = Ok Sample.client
  /\ (get_instance (run id id calls init.2)).1 = Ok Sample.client
  /\ shut_down (run id id calls init.2) = [0%nat; 0%nat].
Proof.
  cbv zeta. split; [ reflexivity | ].
  destruct (shutdown_keeps_singleton id id
              [Shutdown Sample.client; GetInstance; Shutdown Sample.client]
              (initialize id id (Some "k") (Some "https://host")
                 initial_process).2 eq_refl)
    as (Hg & _ & Hs).
  split; [ exact Hg | exact Hs ].
Defined.

(** ** A text that cannot be read *)

(** On a plain attribute the statement over readings is the statement of
    the wrapper. *)
Lemma record_text_read_plain (response : pyval) (sp : span) :
  record_text_read (read_attr response "text") sp = record_text response sp.
Proof.
  unfold record_text_read, record_text, read_attr.
  destruct (lookup_attr response "text") as [ t | ]; [ | reflexivity ].
  unfold bind, lift, hasattr_read. destruct (truthy t); reflexivity.
Qed.

(** Over plain attributes the wrapper over readings is the wrapper. *)
Lemma wrapped_generate_content_reading_plain
    (original : pyval -> list pyval -> gmap string pyval -> result pyval)
    (self : pyval) (args : list pyval) (kwargs : gmap string pyval)
    (finished : list span) :
  wrapped_generate_content_reading (fun response => read_attr response "text")
    original self args kwargs finished
  = wrapped_generate_content original self args kwargs finished.
Proof.
  unfold wrapped_generate_content_reading, wrapped_generate_content,
    start_as_current_span.
  match goal with
  | |- (let (_, _) := ?a in _) = (let (_, _) := ?b in _) =>
      assert (Heq : a = b); [ | rewrite Heq; reflexivity ]
  end.
  unfold traced_call_reading, traced_call, record_response, try_except, bind,
    lift.
  cbv beta iota delta [set_attribute name attributes status events ended].
  rewrite !record_tools_eq.
  destruct (original self args kwargs) as [ response | e ]; [ | reflexivity ].
  rewrite record_text_read_plain.
  destruct (record_text response _) as [[ [] | e ] sp1]; [ | reflexivity ].
  destruct (record_function_calls response sp1) as [[ [] | e ] sp2];
    [ | reflexivity ].
  destruct (record_usage response sp2) as [[ [] | e ] sp3]; reflexivity.
Qed.

(** C3.  The claim fails on the code: when the original returns a response
    whose [text] cannot be read, the getter raising something other than an
    [AttributeError] (the SDK raises a [ValueError] for a reply without a
    text part), [hasattr(response, 'text')] lets the exception through and
    the wrapped call raises it instead of returning the response; the span
    ends with status ERROR and that exception recorded, and with no
    response attribute, the usage counters included. *)
Theorem unreadable_text_fails_the_call
    (text_of : pyval -> result pyval)
    (original : pyval -> list pyval -> gmap string pyval -> result pyval)
    (self : pyval) (args : list pyval) (kwargs : gmap string pyval)
    (finished : list span) (response : pyval) (e : pyexn) :
  original self args kwargs = Ok response ->
  text_of response = Raise e ->
  isinstance_exn e AttributeError = false ->
  isinstance_exn e Exception = true ->
  exists sp,
    wrapped_generate_content_reading text_of original self args kwargs finished
    = (Raise e, (finished ++ [sp])%list)
    /\ status_code (status sp) = ERROR
    /\ e ∈ events sp
    /\ forall k,
         k ∈ ["llm.response.content"; "llm.response.function_calls";
              "llm.response.function_call_count"; "llm.usage.prompt_tokens";
              "llm.usage.completion_tokens"; "llm.usage.total_tokens"] ->
         attributes sp !! k = None.
Proof.
  intros H Htext Hattr Hexc.
  unfold wrapped_generate_content_reading, start_as_current_span.
  fold (contents_of args kwargs) (tools_of kwargs).
  assert (Hcall :
    traced_call_reading text_of original self args kwargs
      (getattr self "model_name" (VStr "unknown")) (contents_of args kwargs)
      (tools_of kwargs)
      (new_span ("gemini.chat.generate_content "
                 +:+ str (getattr self "model_name" (VStr "unknown"))))
    = (Raise e, on_exception e (started self args kwargs))).
  { unfold started. rewrite request_span_eq.
    unfold traced_call_reading, try_except, bind, lift.
    cbv beta iota delta [set_attribute name attributes status events ended].
    rewrite !record_tools_eq. rewrite H.
    unfold record_text_read, bind, lift, hasattr_read. rewrite Htext, Hattr.
    cbn [existsb]. rewrite Hexc. cbn [orb].
    unfold on_exception. rewrite Hexc. reflexivity. }
  rewrite Hcall. eexists. split; [ reflexivity | ].
  destruct (started_events self args kwargs) as (He & Hs & _).
  unfold on_exit, on_exception. rewrite Hexc.
  cbn [end_span bind record_exception set_status status events attributes
       status_code snd].
  split; [ reflexivity | ]. split; [ set_solver | ].
  intros k Hk. apply started_no_response. exact Hk.
Qed.

(** The reply with a function call and no text part: the wrapped call
    raises the [ValueError] of the getter, and the usage counters the reply
    carries are not recorded. *)
Lemma unreadable_text_fails_the_call_witness :
  text_of_reply function_call_reply = Raise no_text_part
  /\ exists sp,
       wrapped_generate_content_reading text_of_reply
         (Sample.returning function_call_reply) Sample.gemini_pro
         [VStr "hello"] ∅ []
       = (Raise no_text_part, [sp])
       /\ status_code (status sp) = ERROR
       /\ attributes sp !! "llm.usage.total_tokens" = None.
Proof.
  split; [ reflexivity | ].
  destruct (unreadable_text_fails_the_call text_of_reply
              (Sample.returning function_call_reply) Sample.gemini_pro
              [VStr "hello"] ∅ [] function_call_reply no_text_part
              eq_refl eq_refl eq_refl eq_refl)
    as (sp & Hcall & Hs & _ & Hk).
  exists sp. split; [ exact Hcall | ]. split; [ exact Hs | ].
  apply Hk. in_keys.
Defined.
